(** * llm-rag-test: the retrieval-augmented generation core

    A shallow embedding of the three core components of the application
    ([app/embeddings.py], [app/database.py], [app/rag.py]) together with the
    properties the design document states about them.

    Conventions of the embedding:
    - a Python [str] is a Rocq [string] whose characters are the code points
      0..255 (the Latin-1 range of Unicode); [str.strip], [str.lower] and
      [str.encode] are modelled exactly on that range;
    - a Python [float] is a real number [R] in the embedding generator (which
      needs [sin], [log] and [sqrt]) and a rational [Q] in the orchestrator
      (whose arithmetic is rational and can be evaluated); the rounding of
      double precision is not modelled, so a value computed in floats can
      differ from the one here in its last digits;
    - code that can raise runs in the monad [M], which threads the world
      (clock, record of collaborator calls, backend state) and returns either
      a value or the exception raised;
    - external libraries (the ChromaDB collection, the sentence-transformer
      model, the HTTP client) are parameters of the sections that use them;
    - the tracing, metric and logging calls take no part in what the methods
      return or raise and are left out. *)

From Stdlib Require Import ZArith QArith Qround Reals Lra Lia.
From Stdlib Require Lqa.
From Stdlib Require Import String Ascii List.
From stdpp Require Import gmap strings pretty.
From Equations Require Import Equations.
Import ListNotations.

Local Open Scope string_scope.
Local Open Scope list_scope.
Local Open Scope Z_scope.

(* ===================================================================== *)
(** * Python strings on the Latin-1 range *)
(* ===================================================================== *)

Module PyStr.

(** [ord(c)] *)
Definition ord (c : ascii) : Z := Z.of_N (N_of_ascii c).

(** [chr(n)], for [0 <= n < 256] *)
Definition chr (n : Z) : ascii := ascii_of_N (Z.to_N n).

(** [c.isspace()]: the characters of bidirectional class WS, B or S and of
    category Zs; below 256 these are TAB..CR, FS..US, SPACE, NEL and NBSP. *)
Definition isspace (c : ascii) : bool :=
  let n := ord c in
  ((9 <=? n) && (n <=? 13)) || ((28 <=? n) && (n <=? 32))
  || (n =? 133) || (n =? 160).

(** [c.lower()]: A..Z and the capitals U+00C0..U+00DE (the multiplication
    sign U+00D7 apart) move up by 32; every other character is fixed. *)
Definition lower_char (c : ascii) : ascii :=
  let n := ord c in
  if ((65 <=? n) && (n <=? 90))
     || ((192 <=? n) && (n <=? 222) && negb (n =? 215))
  then chr (n + 32) else c.

Fixpoint lstrip (s : string) : string :=
  match s with
  | EmptyString => EmptyString
  | String c s' => if isspace c then lstrip s' else s
  end.

Fixpoint rstrip (s : string) : string :=
  match s with
  | EmptyString => EmptyString
  | String c s' =>
      match rstrip s' with
      | EmptyString => if isspace c then EmptyString else String c EmptyString
      | r => String c r
      end
  end.

(** [s.strip()] *)
Definition strip (s : string) : string := rstrip (lstrip s).

(** [s.lower()] *)
Fixpoint lower (s : string) : string :=
  match s with
  | EmptyString => EmptyString
  | String c s' => String (lower_char c) (lower s')
  end.

(** [len(s)] *)
Definition len (s : string) : nat := String.length s.

(** The truth value of a string: [bool(s)] is [len(s) > 0]. *)
Definition truthy (s : string) : bool :=
  match s with EmptyString => false | String _ _ => true end.

(** [s[i]] for [0 <= i < len(s)] *)
Definition getitem (s : string) (i : nat) : option ascii := String.get i s.

(** [s[:n]] *)
Fixpoint take (n : nat) (s : string) : string :=
  match n, s with
  | O, _ => EmptyString
  | S _, EmptyString => EmptyString
  | S n', String c s' => String c (take n' s')
  end.

(** [s.encode()]: UTF-8; a code point below 128 is one byte, one in
    128..255 is the two bytes [110000xx 10xxxxxx]. *)
Fixpoint encode (s : string) : list Z :=
  match s with
  | EmptyString => []
  | String c s' =>
      let n := ord c in
      if n <? 128 then n :: encode s'
      else Z.lor 192 (Z.shiftr n 6) :: Z.lor 128 (Z.land n 63) :: encode s'
  end.

(** [s.startswith(p)] *)
Fixpoint startswith (p s : string) : bool :=
  match p, s with
  | EmptyString, _ => true
  | String a p', String b s' => if Ascii.eqb a b then startswith p' s' else false
  | String _ _, EmptyString => false
  end.

End PyStr.

(* ===================================================================== *)
(** * hashlib.sha256 (FIPS 180-4) *)
(* ===================================================================== *)

Module Sha256.

Definition mask32 (x : Z) : Z := Z.land x 0xffffffff.
Definition add32 (x y : Z) : Z := mask32 (x + y).
Definition rotr (n x : Z) : Z :=
  Z.lor (Z.shiftr x n) (mask32 (Z.shiftl x (32 - n))).
Definition not32 (x : Z) : Z := Z.lxor x 0xffffffff.

Definition ch (x y z : Z) : Z := Z.lxor (Z.land x y) (Z.land (not32 x) z).
Definition maj (x y z : Z) : Z :=
  Z.lxor (Z.lxor (Z.land x y) (Z.land x z)) (Z.land y z).
Definition bsig0 (x : Z) : Z := Z.lxor (Z.lxor (rotr 2 x) (rotr 13 x)) (rotr 22 x).
Definition bsig1 (x : Z) : Z := Z.lxor (Z.lxor (rotr 6 x) (rotr 11 x)) (rotr 25 x).
Definition ssig0 (x : Z) : Z := Z.lxor (Z.lxor (rotr 7 x) (rotr 18 x)) (Z.shiftr x 3).
Definition ssig1 (x : Z) : Z := Z.lxor (Z.lxor (rotr 17 x) (rotr 19 x)) (Z.shiftr x 10).

(** The first 64 primes. *)
Definition primes : list Z :=
  [ 2; 3; 5; 7; 11; 13; 17; 19; 23; 29; 31; 37; 41; 43; 47; 53; 59; 61; 67;
    71; 73; 79; 83; 89; 97; 101; 103; 107; 109; 113; 127; 131; 137; 139;
    149; 151; 157; 163; 167; 173; 179; 181; 191; 193; 197; 199; 211; 223;
    227; 229; 233; 239; 241; 251; 257; 263; 269; 271; 277; 281; 283; 293;
    307; 311 ].

(** The integer cube root, one bit at a time from bit [n - 1] down. *)
Fixpoint cube_root (n : nat) (x r : Z) : Z :=
  match n with
  | O => r
  | S n' =>
      let c := r + Z.shiftl 1 (Z.of_nat n') in
      cube_root n' x (if c * c * c <=? x then c else r)
  end.

(** The round constants: the first 32 bits of the fractional parts of the
    cube roots of the first 64 primes. *)
Definition K : list Z :=
  Eval vm_compute in
    List.map (fun p => mask32 (cube_root 40 (Z.shiftl p 96) 0)) primes.

(** The eight working words. *)
Record state := mkState { ha : Z; hb : Z; hc : Z; hd : Z;
                          he : Z; hf : Z; hg : Z; hh : Z }.

(** The initial hash value: the first 32 bits of the fractional parts of
    the square roots of the first 8 primes. *)
Definition frac_sqrt (p : Z) : Z := mask32 (Z.sqrt (Z.shiftl p 64)).

Definition H0 : state :=
  Eval vm_compute in
    mkState (frac_sqrt 2) (frac_sqrt 3) (frac_sqrt 5) (frac_sqrt 7)
            (frac_sqrt 11) (frac_sqrt 13) (frac_sqrt 17) (frac_sqrt 19).

(** Padding: a 1 bit, zeros up to 56 modulo 64, then the bit length on
    eight bytes, most significant first. *)
Definition be_bytes (n : nat) (x : Z) : list Z :=
  List.map (fun i => Z.land (Z.shiftr x (8 * Z.of_nat i)) 255) (List.rev (List.seq 0 n)).

Definition pad (msg : list Z) : list Z :=
  let l := Z.of_nat (List.length msg) in
  let k := Z.to_nat ((55 - l) mod 64) in
  msg ++ 128 :: List.repeat 0 k ++ be_bytes 8 (8 * l).

(** Big-endian words of a block. *)
Fixpoint words (n : nat) (bs : list Z) : list Z :=
  match n, bs with
  | S n', b0 :: b1 :: b2 :: b3 :: rest =>
      (Z.shiftl b0 24 + Z.shiftl b1 16 + Z.shiftl b2 8 + b3) :: words n' rest
  | _, _ => []
  end.

(** The message schedule, newest word first. *)
Fixpoint schedule (n : nat) (w : list Z) : list Z :=
  match n with
  | O => w
  | S n' =>
      let x := add32 (add32 (ssig1 (List.nth 1 w 0)) (List.nth 6 w 0))
                     (add32 (ssig0 (List.nth 14 w 0)) (List.nth 15 w 0)) in
      schedule n' (x :: w)
  end.

Definition round (s : state) (kw : Z * Z) : state :=
  let '(k, w) := kw in
  let t1 := add32 (add32 (add32 (hh s) (bsig1 (he s))) (ch (he s) (hf s) (hg s)))
                  (add32 k w) in
  let t2 := add32 (bsig0 (ha s)) (maj (ha s) (hb s) (hc s)) in
  mkState (add32 t1 t2) (ha s) (hb s) (hc s) (add32 (hd s) t1) (he s) (hf s) (hg s).

Definition compress (h : state) (block : list Z) : state :=
  let w := List.rev (schedule 48 (List.rev (words 16 block))) in
  let s := List.fold_left round (List.combine K w) h in
  mkState (add32 (ha h) (ha s)) (add32 (hb h) (hb s)) (add32 (hc h) (hc s))
          (add32 (hd h) (hd s)) (add32 (he h) (he s)) (add32 (hf h) (hf s))
          (add32 (hg h) (hg s)) (add32 (hh h) (hh s)).

Fixpoint blocks (n : nat) (h : state) (bs : list Z) : state :=
  match n with
  | O => h
  | S n' => blocks n' (compress h (List.firstn 64 bs)) (List.skipn 64 bs)
  end.

(** [hashlib.sha256(msg).digest()] as its 32 bytes. *)
Definition digest (msg : list Z) : list Z :=
  let p := pad msg in
  let s := blocks (List.length p / 64) H0 p in
  List.flat_map (be_bytes 4)
    [ha s; hb s; hc s; hd s; he s; hf s; hg s; hh s].

Definition hex_digit (n : Z) : ascii :=
  if n <? 10 then PyStr.chr (48 + n) else PyStr.chr (87 + n).

Fixpoint hex_of_bytes (bs : list Z) : string :=
  match bs with
  | [] => EmptyString
  | b :: bs' => String (hex_digit (Z.shiftr b 4))
                  (String (hex_digit (Z.land b 15)) (hex_of_bytes bs'))
  end.

(** The two hexadecimal digits of a byte. *)
Definition hex_pair (b : Z) : string :=
  String (hex_digit (Z.shiftr b 4)) (String (hex_digit (Z.land b 15)) "").

(** [hashlib.sha256(msg).hexdigest()] *)
Definition hexdigest (msg : list Z) : string := hex_of_bytes (digest msg).

End Sha256.

(* ===================================================================== *)
(** * Python objects, exceptions and the effect monad *)
(* ===================================================================== *)

(** The classes of exception the code raises or catches by name. *)
Inductive exn_class :=
| ValueError | TypeError | KeyError | IndexError | AttributeError
| ZeroDivisionError | RuntimeError | RequestException | OtherException.

(** An exception deriving from [Exception], which is what [except Exception]
    catches: its class and [str(e)]. *)
Record exn := Exn { exn_cls : exn_class; exn_str : string }.

#[global] Instance exn_class_eq_dec : EqDecision exn_class.
Proof. solve_decision. Defined.

(** The outcome of a call: a value, or the exception it raised. *)
Inductive result (A : Type) :=
| Ok (a : A)
| Raise (e : exn).
Arguments Ok {A} a.
Arguments Raise {A} e.

#[global] Instance result_ret : MRet result := fun A a => Ok a.
#[global] Instance result_bind : MBind result := fun A B f r =>
  match r with Ok a => f a | Raise e => Raise e end.

(** [try: body except Exception as e: handler(e)] *)
Definition try_result {A} (body : result A) (handler : exn -> result A) : result A :=
  match body with Ok a => Ok a | Raise e => handler e end.

(** JSON-like Python objects: what a metadata value or a decoded API
    response can be. A [PyDict] keeps its items as an association list. *)
#[local] Set Warnings "-register-all".
Inductive pyobj :=
| PyNone
| PyBool (b : bool)
| PyInt (n : Z)
| PyFloat (q : Q)
| PyStr (s : string)
| PyList (l : list pyobj)
| PyDict (items : list (string * pyobj)).

(** A metadata mapping. *)
Abbreviation dict := (gmap string pyobj).

(** The state monad with exceptions: a computation takes the state of the
    world and returns its outcome and the new state. *)
Definition M (S A : Type) : Type := S -> result A * S.

Section Monad.
Context {S : Type}.

Definition ret {A} (a : A) : M S A := fun s => (Ok a, s).
Definition raise {A} (e : exn) : M S A := fun s => (Raise e, s).
Definition bind {A B} (m : M S A) (k : A -> M S B) : M S B :=
  fun s => match m s with
           | (Ok a, s') => k a s'
           | (Raise e, s') => (Raise e, s')
           end.
(** [try: body except Exception as e: handler(e)]; the effects of the
    body up to the exception stay. *)
Definition try_except {A} (body : M S A) (handler : exn -> M S A) : M S A :=
  fun s => match body s with
           | (Ok a, s') => (Ok a, s')
           | (Raise e, s') => handler e s'
           end.
(** A pure step that can raise. *)
Definition lift {A} (r : result A) : M S A := fun s => (r, s).
End Monad.

#[global] Instance M_ret {S} : MRet (M S) := fun A a => ret a.
#[global] Instance M_bind {S} : MBind (M S) := fun A B k m => bind m k.

(** [round(x, ndigits)]: to the nearest multiple of [10^-ndigits], a tie
    going to the even neighbour. *)
Definition round_half_even (x : Q) : Z :=
  let f := Qfloor x in
  match Qcompare (x - inject_Z f) (1 # 2) with
  | Lt => f
  | Gt => f + 1
  | Eq => if Z.even f then f else f + 1
  end.

Definition py_round (x : Q) (ndigits : nat) : Q :=
  let scale := inject_Z (10 ^ Z.of_nat ndigits) in
  Qred (inject_Z (round_half_even (x * scale)) / scale).

(** [max(a, b)] of Python: the first argument unless the second is greater. *)
Definition py_max (a b : Q) : Q := if Qlt_le_dec a b then b else a.

(* ===================================================================== *)
(** * app/embeddings.py: EmbeddingGenerator *)
(* ===================================================================== *)

Module Embeddings.
Local Open Scope R_scope.

(** An embedding vector: a list of floats. *)
Abbreviation vector := (list R).

(** The loaded sentence-transformer: [model.encode(texts, ...)] followed by
    the conversion to lists. It returns what the library returns, or raises. *)
Definition encoder := list string -> result (list vector).

Record EmbeddingGenerator := {
  model_name : string;
  embedding_dim : nat;
  model : option encoder;
  use_fallback : bool
}.

(** [[0.0] * n] *)
Definition zeros (n : nat) : vector := List.repeat 0 n.

(** [range(start, stop, step)] for a positive step. *)
Definition py_range (start stop step : nat) : list nat :=
  List.map (fun k => (start + k * step)%nat)
           (List.seq 0 ((stop - start + (step - 1)) / step)%nat).

(** The value of one hexadecimal digit, as [int(_, 16)] reads it. *)
Definition hex_value (c : ascii) : option Z :=
  let n := PyStr.ord c in
  if ((48 <=? n) && (n <=? 57))%Z then Some (n - 48)%Z
  else if ((97 <=? n) && (n <=? 102))%Z then Some (n - 87)%Z
  else if ((65 <=? n) && (n <=? 70))%Z then Some (n - 55)%Z
  else None.

(** [int(s, 16)] as the code uses it, on two characters of a hexadecimal
    digest: a string of hexadecimal digits is read in base 16; the empty
    string and any other character give [ValueError] (the signs, blanks,
    prefix and underscores that [int] accepts do not occur). *)
Fixpoint int16_digits (acc : Z) (s : string) : option Z :=
  match s with
  | EmptyString => Some acc
  | String c s' =>
      match hex_value c with
      | Some d => int16_digits (16 * acc + d)%Z s'
      | None => None
      end
  end.

Definition int16 (s : string) : result Z :=
  match s with
  | EmptyString => Raise (Exn ValueError "invalid literal for int() with base 16")
  | _ => match int16_digits 0%Z s with
         | Some n => Ok n
         | None => Raise (Exn ValueError "invalid literal for int() with base 16")
         end
  end.

(** [a % b] on non-negative integers. *)
Definition py_mod (a b : nat) : result nat :=
  match b with
  | O => Raise (Exn ZeroDivisionError "integer modulo by zero")
  | _ => Ok (a mod b)%nat
  end.

(** [s[i]] *)
Definition str_index (s : string) (i : nat) : result ascii :=
  match PyStr.getitem s i with
  | Some c => Ok c
  | None => Raise (Exn IndexError "string index out of range")
  end.

(** [sum(x * x for x in embedding)] *)
Definition sum_squares (embedding : vector) : R :=
  List.fold_left (fun acc x => acc + x * x) embedding 0.

(** The first loop of the fallback: one value per hexadecimal pair of the
    digest, [idxs] being what is left of [range(0, min(len(text_hash),
    embedding_dim * 2), 2)]. *)
Fixpoint hash_loop (dim : nat) (text_hash text_lower : string)
         (idxs : list nat) (embedding : vector) : result vector :=
  match idxs with
  | [] => Ok embedding
  | i :: rest =>
      if (dim <=? List.length embedding)%nat then Ok embedding (* break *)
      else
        let hex_pair := String.substring i 2 text_hash in
        n ← int16 hex_pair;
        let base_value := IZR n / 255 in
        char_index ← py_mod (List.length embedding) (PyStr.len text_lower);
        c ← str_index text_lower char_index;
        let char_value := IZR (PyStr.ord c) / 255 in
        let length_factor := ln (INR (PyStr.len text_lower + 1)) / 10 in
        let final_value :=
          base_value * (6 / 10) + char_value * (3 / 10) + length_factor * (1 / 10) in
        let final_value := (sin (final_value * PI * 2) + 1) / 2 in
        hash_loop dim text_hash text_lower rest (embedding ++ [final_value])
  end.

(** The second loop: [while len(embedding) < self.embedding_dim]. *)
Equations? fill_loop (dim : nat) (text_lower : string) (embedding : vector)
  : vector by wf (dim - List.length embedding)%nat lt :=
  fill_loop dim text_lower embedding with lt_dec (List.length embedding) dim := {
    | left _ =>
        let pos := List.length embedding in
        let pos_value := sin (INR (pos * PyStr.len text_lower) / 100) in
        fill_loop dim text_lower (embedding ++ [(pos_value + 1) / 2]);
    | right _ => embedding }.
Proof. rewrite List.length_app. simpl. lia. Qed.

(** The body of the loop over the texts, for one text. *)
Definition fallback_embedding (dim : nat) (text : string) : result vector :=
  if negb (PyStr.truthy (PyStr.strip text)) then Ok (zeros dim)
  else
    let text_lower := PyStr.strip (PyStr.lower text) in
    let text_hash := Sha256.hexdigest (PyStr.encode text_lower) in
    embedding ← hash_loop dim text_hash text_lower
                  (py_range 0 (Nat.min (PyStr.len text_hash) (dim * 2)) 2) [];
    let embedding := fill_loop dim text_lower embedding in
    let magnitude := sqrt (sum_squares embedding) in
    let embedding :=
      if Rlt_dec 0 magnitude then List.map (fun x => x / magnitude) embedding
      else embedding in
    Ok (List.firstn dim embedding).

(** [_generate_fallback_embeddings]: the loop over [texts], appending to
    [embeddings]. *)
Fixpoint fallback_texts_loop (dim : nat) (texts : list string)
         (embeddings : list vector) : result (list vector) :=
  match texts with
  | [] => Ok embeddings
  | text :: rest =>
      e ← fallback_embedding dim text;
      fallback_texts_loop dim rest (embeddings ++ [e])
  end.

Definition _generate_fallback_embeddings (self : EmbeddingGenerator)
           (texts : list string) : result (list vector) :=
  fallback_texts_loop (embedding_dim self) texts [].

(** [_generate_model_embeddings] *)
Definition _generate_model_embeddings (self : EmbeddingGenerator)
           (texts : list string) : result (list vector) :=
  match model self with
  | None => Raise (Exn RuntimeError "Model not loaded")
  | Some encode => encode texts
  end.

(** [generate_embeddings] on a list of strings: the method past its
    [isinstance] check, which [generate_embeddings_untyped] below carries
    out on a list of arbitrary objects. *)
Definition generate_embeddings (self : EmbeddingGenerator)
           (texts : list string) : result (list vector) :=
  match texts with
  | [] => Ok []
  | _ =>
      let processed_texts :=
        List.map PyStr.strip
          (List.filter (fun text => PyStr.truthy (PyStr.strip text)) texts) in
      match processed_texts with
      | [] => Ok (List.map (fun _ => zeros (embedding_dim self)) texts)
      | _ =>
          try_result
            (if use_fallback self
             then _generate_fallback_embeddings self texts
             else _generate_model_embeddings self processed_texts)
            (fun e => Raise (Exn RuntimeError
                                 ("Failed to generate embeddings: " ++ exn_str e)))
      end
  end.

(** [isinstance(o, str)], with the string when it holds. *)
Definition as_str (o : pyobj) : option string :=
  match o with
  | PyStr s => Some s
  | _ => None
  end.

(** [generate_embeddings] as Python enters it, with a list of arbitrary
    objects: the empty list is answered first; a list with an element that
    is not a string is refused; any other list goes through the body
    above. *)
Definition generate_embeddings_untyped (self : EmbeddingGenerator)
           (texts : list pyobj) : result (list vector) :=
  match texts with
  | [] => Ok []
  | _ =>
      match mapM as_str texts with
      | None => Raise (Exn ValueError "All inputs must be strings")
      | Some strings => generate_embeddings self strings
      end
  end.

End Embeddings.

(* ===================================================================== *)
(** * The fallback embedding as the design document words it *)
(* ===================================================================== *)

Module FallbackSpec.
Local Open Scope R_scope.

(** Step 1: the normalized text. *)
Definition normalize (text : string) : string := PyStr.strip (PyStr.lower text).

(** Step 2: the hash read as a sequence of byte-pairs. *)
Definition hash_pairs (t : string) : list Z := Sha256.digest (PyStr.encode t).

(** The ordinal of the character of [t] at position [i]. *)
Definition ord_at (t : string) (i : nat) : Z :=
  match String.get i t with Some c => PyStr.ord c | None => 0%Z end.

(** Step 3: the value of dimension [i] while the hash feeds it. *)
Definition hashed_value (t : string) (i : nat) : R :=
  let base := IZR (List.nth i (hash_pairs t) 0%Z) / 255 in
  let char_val := IZR (ord_at t (i mod String.length t)) / 255 in
  let length_factor := ln (INR (String.length t) + 1) / 10 in
  let v := 6 / 10 * base + 3 / 10 * char_val + 1 / 10 * length_factor in
  (sin (2 * PI * v) + 1) / 2.

(** Step 4: the value of position [pos] once the hash is exhausted. *)
Definition filler_value (t : string) (pos : nat) : R :=
  (sin (INR pos * INR (String.length t) / 100) + 1) / 2.

Definition component (t : string) (i : nat) : R :=
  if (i <? List.length (hash_pairs t))%nat then hashed_value t i
  else filler_value t i.

(** The Euclidean norm. *)
Definition l2_norm (v : list R) : R :=
  sqrt (List.fold_right Rplus 0 (List.map (fun x => x * x) v)).

(** Step 5: L2 normalization, a vector of magnitude zero left as it is. *)
Definition l2_normalize (v : list R) : list R :=
  if Req_dec_T (l2_norm v) 0 then v
  else List.map (fun x => x / l2_norm v) v.

Definition fallback_embed (D : nat) (text : string) : list R :=
  let t := normalize text in
  match t with
  | EmptyString => List.repeat 0 D
  | _ => l2_normalize (List.map (component t) (List.seq 0 D))
  end.

End FallbackSpec.

(* ===================================================================== *)
(** * app/database.py: ChromaDBManager *)
(* ===================================================================== *)

Module Database.

Definition MAX_SEARCH_DOCUMENTS : Z := 50.

(** What the code hands to the collection as a document id: a string, or
    [None]. *)
Abbreviation pyid := (option string).

(** The result dictionaries of the collection; a field is [None] when the
    key is absent or holds [None]. *)
Record GetResult (vector : Type) := {
  get_ids : option (list string);
  get_documents : option (list string);
  get_metadatas : option (list dict);
  get_embeddings : option (list vector)
}.
Arguments get_ids {vector}.
Arguments get_documents {vector}.
Arguments get_metadatas {vector}.
Arguments get_embeddings {vector}.

Record QueryResult := {
  query_ids : option (list (list string));
  query_documents : option (list (list string));
  query_distances : option (list (list Q));
  query_metadatas : option (list (list dict))
}.

(** The ChromaDB collection, as far as the manager uses it. Every call
    acts on the state [E] of the world and may raise. *)
Record Collection (E vector : Type) := {
  coll_get : list pyid -> list string -> M E (GetResult vector);
  coll_add : list pyid -> list string -> list vector -> list dict -> M E unit;
  coll_update : list pyid -> option (list string) -> option (list vector)
                -> option (list dict) -> M E unit;
  coll_delete : list pyid -> M E unit;
  coll_query : list vector -> Z -> list string -> M E QueryResult
}.
Arguments coll_get {E vector}.
Arguments coll_add {E vector}.
Arguments coll_update {E vector}.
Arguments coll_delete {E vector}.
Arguments coll_query {E vector}.

(** What [search] returns. *)
Record SearchResults := {
  documents : list string;
  distances : list Q;
  metadatas : list dict;
  ids : list string
}.

(** What [get_document] returns when the document is found. *)
Record DocData (vector : Type) := {
  doc_id : string;
  doc_document : option string;
  doc_metadata : option dict;
  doc_embedding : option vector
}.
Arguments doc_id {vector}.
Arguments doc_document {vector}.
Arguments doc_metadata {vector}.
Arguments doc_embedding {vector}.

(** The fields [get] returns when [include] is not given. *)
Definition default_include : list string := ["metadatas"; "documents"].

(** [x[0] if x and x[0] else []] *)
Definition first_or_empty {A} (x : option (list (list A))) : list A :=
  match x with
  | Some (l :: _) => l
  | _ => []
  end.

Section Manager.
Context {E vector : Type}.
(** [self.collection] *)
Variable collection : Collection E vector.
(** [time.time()]: the clock of the world. *)
Variable time_time : E -> Q.
(** [hash] on strings (seeded per process) and [str] on dictionaries. *)
Variable py_hash : string -> Z.
Variable str_dict : dict -> string.

Definition now : M E Q := fun e => (Ok (time_time e), e).

(** [_generate_document_id]: the body builds [content] and ends; the
    function returns [None]. *)
Definition _generate_document_id (text : string) (metadata : option dict) : pyid :=
  let metadata := default ∅ metadata in
  let content := (text ++ ":" ++ pretty (py_hash (str_dict metadata)))%string in
  None.

Definition _document_exists (doc_id : pyid) : M E bool :=
  try_except
    (result ← coll_get collection [doc_id] default_include;
     mret (0 <? List.length (default [] (get_ids result)))%nat)
    (fun _ => mret false).

(** The caller's [metadata] dictionary is updated in place by the code;
    here the stamped dictionary is the one handed to the collection. *)
Definition add_document (text : string) (embedding : vector)
           (metadata : option dict) (allow_duplicates : bool) : M E pyid :=
  let metadata := default ∅ metadata in
  let doc_id := _generate_document_id text (Some metadata) in
  let store : M E pyid :=
    try_except
      (t ← now;
       let metadata :=
         <["text_length" := PyInt (Z.of_nat (PyStr.len text))]>
           (<["timestamp" := PyFloat t]> metadata) in
       _ ← coll_add collection [doc_id] [text] [embedding] [metadata];
       mret doc_id)
      (fun e => raise (Exn RuntimeError ("Document storage failed: " ++ exn_str e))) in
  if allow_duplicates then store
  else
    duplicate ← _document_exists doc_id;
    if (duplicate : bool) then mret doc_id else store.

Definition search (query_embedding : vector) (n_results : Z) : M E SearchResults :=
  let n_results := Z.max 1 (Z.min n_results MAX_SEARCH_DOCUMENTS) in
  try_except
    (results ← coll_query collection [query_embedding] n_results
                 ["documents"; "distances"; "metadatas"];
     mret {| documents := first_or_empty (query_documents results);
             distances := first_or_empty (query_distances results);
             metadatas := first_or_empty (query_metadatas results);
             ids := first_or_empty (query_ids results) |})
    (fun e => raise (Exn RuntimeError ("Search failed: " ++ exn_str e))).

Definition update_document (doc_id : string) (text : option string)
           (embedding : option vector) (metadata : option dict) : M E bool :=
  try_except
    (found ← _document_exists (Some doc_id);
     if negb found then mret false
     else
       let documents := (fun t => [t]) <$> text in
       let embeddings := (fun v => [v]) <$> embedding in
       metadatas ← match metadata with
                   | None => mret None
                   | Some metadata =>
                       t ← now;
                       let metadata := <["timestamp" := PyFloat t]> metadata in
                       let metadata :=
                         match text with
                         | Some txt =>
                             if PyStr.truthy txt
                             then <["text_length" := PyInt (Z.of_nat (PyStr.len txt))]> metadata
                             else metadata
                         | None => metadata
                         end in
                       mret (Some [metadata])
                   end;
       _ ← coll_update collection [Some doc_id] documents embeddings metadatas;
       mret true)
    (fun _ => mret false).

Definition delete_document (doc_id : string) : M E bool :=
  try_except
    (found ← _document_exists (Some doc_id);
     if negb found then mret false
     else
       _ ← coll_delete collection [Some doc_id];
       mret true)
    (fun _ => mret false).

Definition get_document (doc_id : string) : M E (option (DocData vector)) :=
  try_except
    (result ← coll_get collection [Some doc_id]
                ["documents"; "metadatas"; "embeddings"];
     match get_ids result with
     | None | Some [] => mret None
     | Some (id0 :: _) =>
         mret (Some {| doc_id := id0;
                       doc_document := head (default [] (get_documents result));
                       doc_metadata := head (default [] (get_metadatas result));
                       doc_embedding := head (default [] (get_embeddings result)) |})
     end)
    (fun _ => mret None).

(** The contract of a collection on [query]: for each query vector, at
    most the number of results that was asked for. *)
Definition bounded_query : Prop :=
  forall qs n include (e e' : E) res,
    coll_query collection qs n include e = (Ok res, e') ->
    List.Forall (fun hits => (List.length hits <= Z.to_nat n)%nat)
                (default [] (query_documents res)).

End Manager.

End Database.

(* ===================================================================== *)
(** * A reference collection *)
(* ===================================================================== *)

(** An in-memory collection with the behaviour of a ChromaDB collection that
    the manager relies on: ids must be strings; [get] returns the entries
    that exist; [add] ignores an id that is already stored; [update] changes
    the fields it is given on the entries that exist, merging the metadata,
    and embeds a new document with the collection's embedding function when
    no embedding comes with it, raising when that function does; [query]
    returns the nearest entries, nearest first. It instantiates the
    collection parameter of the manager. *)
Module ChromaModel.
Import Database.

Section Model.
Context {vector : Type}.
(** The distance of the collection's metric. *)
Variable distance : vector -> vector -> Q.

Record entry := {
  entry_document : string;
  entry_embedding : vector;
  entry_metadata : dict
}.

(** The world: the clock, the embedding function the collection was
    created with, and the stored entries. *)
Record state := {
  clock : Q;
  embedding_function : string -> result vector;
  entries : gmap string entry
}.

Definition validate_ids (ids : list pyid) : result (list string) :=
  match mapM (fun i : pyid => i) ids with
  | Some l => Ok l
  | None => Raise (Exn ValueError "Expected ID to be a str, got None")
  end.

Definition included (field : string) (include : list string) : bool :=
  bool_decide (field ∈ include).

Definition found (s : state) (ids : list string) : list (string * entry) :=
  omap (fun i => (fun e => (i, e)) <$> entries s !! i) ids.

Definition get (ids : list pyid) (include : list string) : M state (GetResult vector) :=
  fun s =>
    match validate_ids ids with
    | Raise e => (Raise e, s)
    | Ok ids =>
        let rows := found s ids in
        (Ok {| get_ids := Some (rows.*1);
               get_documents :=
                 if included "documents" include
                 then Some (entry_document <$> rows.*2) else None;
               get_metadatas :=
                 if included "metadatas" include
                 then Some (entry_metadata <$> rows.*2) else None;
               get_embeddings :=
                 if included "embeddings" include
                 then Some (entry_embedding <$> rows.*2) else None |}, s)
    end.

Fixpoint add_rows (ids : list string) (docs : list string)
         (embs : list vector) (mds : list dict)
         (m : gmap string entry) : option (gmap string entry) :=
  match ids, docs, embs, mds with
  | [], [], [], [] => Some m
  | i :: ids, d :: docs, v :: embs, md :: mds =>
      let m := match m !! i with
               | Some _ => m
               | None => <[i := {| entry_document := d; entry_embedding := v;
                                   entry_metadata := md |}]> m
               end in
      add_rows ids docs embs mds m
  | _, _, _, _ => None
  end.

Definition add (ids : list pyid) (docs : list string) (embs : list vector)
           (mds : list dict) : M state unit :=
  fun s =>
    match validate_ids ids with
    | Raise e => (Raise e, s)
    | Ok ids =>
        match add_rows ids docs embs mds (entries s) with
        | Some m => (Ok tt, {| clock := clock s;
                               embedding_function := embedding_function s;
                               entries := m |})
        | None => (Raise (Exn ValueError "Unequal lengths"), s)
        end
    end.

(** The [i]-th element of an optional argument. *)
Definition pick {A} (xs : option (list A)) (i : nat) : option A :=
  xs ≫= (fun l => l !! i).

Definition update_entry (d : option string) (v : option vector)
           (md : option dict) (e : entry) : entry :=
  {| entry_document := default (entry_document e) d;
     entry_embedding := default (entry_embedding e) v;
     entry_metadata := match md with
                       | Some md => md ∪ entry_metadata e
                       | None => entry_metadata e
                       end |}.

Fixpoint update_rows (i : nat) (ids : list string) (docs : option (list string))
         (embs : option (list vector)) (mds : option (list dict))
         (m : gmap string entry) : gmap string entry :=
  match ids with
  | [] => m
  | k :: ids =>
      update_rows (S i) ids docs embs mds
        (alter (update_entry (pick docs i) (pick embs i) (pick mds i)) k m)
  end.

Fixpoint embed_all (f : string -> result vector) (docs : list string)
  : result (list vector) :=
  match docs with
  | [] => Ok []
  | d :: docs =>
      match f d with
      | Raise e => Raise e
      | Ok v => match embed_all f docs with
                | Raise e => Raise e
                | Ok vs => Ok (v :: vs)
                end
      end
  end.

(** The embeddings an update stores: the ones it is given or, when it is
    given documents and no embeddings, the ones the collection's
    embedding function computes for these documents. *)
Definition update_embeddings (s : state) (docs : option (list string))
           (embs : option (list vector)) : result (option (list vector)) :=
  match embs, docs with
  | None, Some docs =>
      match embed_all (embedding_function s) docs with
      | Raise e => Raise e
      | Ok vs => Ok (Some vs)
      end
  | _, _ => Ok embs
  end.

Definition update (ids : list pyid) (docs : option (list string))
           (embs : option (list vector)) (mds : option (list dict)) : M state unit :=
  fun s =>
    match validate_ids ids with
    | Raise e => (Raise e, s)
    | Ok ids =>
        match update_embeddings s docs embs with
        | Raise e => (Raise e, s)
        | Ok embs =>
            (Ok tt, {| clock := clock s;
                       embedding_function := embedding_function s;
                       entries := update_rows 0 ids docs embs mds (entries s) |})
        end
    end.

Definition delete (ids : list pyid) : M state unit :=
  fun s =>
    match validate_ids ids with
    | Raise e => (Raise e, s)
    | Ok ids =>
        (Ok tt, {| clock := clock s;
                   embedding_function := embedding_function s;
                   entries := List.fold_left (fun m i => base.delete i m) ids (entries s) |})
    end.

(** Insertion into a list ranked by distance, ties after the entries
    already there. *)
Fixpoint rank_insert (x : Q * (string * entry)) (l : list (Q * (string * entry)))
  : list (Q * (string * entry)) :=
  match l with
  | [] => [x]
  | y :: l' => if Qle_bool (fst y) (fst x) then y :: rank_insert x l' else x :: l
  end.

Definition ranked (q : vector) (s : state) : list (Q * (string * entry)) :=
  List.fold_left (fun acc kv => rank_insert (distance q (entry_embedding (snd kv)), kv) acc)
                 (map_to_list (entries s)) [].

Definition query (qs : list vector) (n_results : Z) (include : list string)
  : M state QueryResult :=
  fun s =>
    if n_results <=? 0
    then (Raise (Exn TypeError "Number of requested results cannot be negative, or zero"), s)
    else
      let hits := (fun q => List.firstn (Z.to_nat n_results) (ranked q s)) <$> qs in
      (Ok {| query_ids := Some ((fun h => (fun x => fst (snd x)) <$> h) <$> hits);
             query_documents :=
               if included "documents" include
               then Some ((fun h => (fun x => entry_document (snd (snd x))) <$> h) <$> hits)
               else None;
             query_distances :=
               if included "distances" include
               then Some ((fun h => fst <$> h) <$> hits) else None;
             query_metadatas :=
               if included "metadatas" include
               then Some ((fun h => (fun x => entry_metadata (snd (snd x))) <$> h) <$> hits)
               else None |}, s).

Definition collection : Collection state vector :=
  {| coll_get := get; coll_add := add; coll_update := update;
     coll_delete := delete; coll_query := query |}.

End Model.

(** The metadata [update_document] hands over when it is given a text and
    a metadata mapping at time [t]. *)
Definition stamped (t : Q) (text : string) (metadata : dict) : dict :=
  let metadata := <["timestamp" := PyFloat t]> metadata in
  if PyStr.truthy text
  then <["text_length" := PyInt (Z.of_nat (PyStr.len text))]> metadata
  else metadata.

Arguments entry : clear implicits.
Arguments state : clear implicits.

(** Vectors of rationals under the squared Euclidean distance. *)
Fixpoint sq_euclid (u v : list Q) : Q :=
  match u, v with
  | x :: u', y :: v' => ((x - y) * (x - y) + sq_euclid u' v')%Q
  | _, _ => 0%Q
  end.

(** The manager over the reference collection. The two last arguments of
    [add_document] stand for [hash] and [str], whose value the code
    discards. *)
Definition add_document := @Database.add_document _ _ (collection sq_euclid) clock
                             (fun _ => 0) (fun _ => "").
Definition update_document := @Database.update_document _ _ (collection sq_euclid) clock.
Definition delete_document := @Database.delete_document _ _ (collection sq_euclid).
Definition get_document := @Database.get_document _ _ (collection sq_euclid).
Definition search := @Database.search _ _ (collection sq_euclid).

End ChromaModel.

(* ===================================================================== *)
(** * app/rag.py: RAGPipeline *)
(* ===================================================================== *)

Module Rag.

(** The three collaborators of the pipeline. *)
Inductive collaborator :=
| EmbeddingGeneratorCall
| VectorStoreCall
| GenerationApiCall.

(** The world of a request: the collaborator calls made so far, oldest
    first, and the environment the collaborators act on. *)
Record world (E : Type) := {
  calls : list collaborator;
  env : E
}.
Arguments calls {E}.
Arguments env {E}.

(** A call to a collaborator is recorded, then runs on the environment. *)
Definition invoke {E A} (c : collaborator) (run : M E A) : M (world E) A :=
  fun w =>
    let '(r, e) := run (env w) in
    (r, {| calls := calls w ++ [c]; env := e |}).

(** The POST request to the chat-completion endpoint. *)
Record Request := {
  req_url : string;
  req_authorization : string;
  req_content_type : string;
  req_http_referer : string;
  req_x_title : string;
  req_model : string;
  req_system : string;
  req_user : string;
  req_max_tokens : Z;
  req_temperature : Q;
  req_timeout : Z
}.

(** The HTTP response: its status and what [response.json()] gives. *)
Record Response := {
  status_code : Z;
  json : result pyobj
}.

Record Source := {
  content : string;
  score : Q;
  metadata : dict
}.

Record Answer := {
  answer : pyobj;
  sources : list Source;
  model_used : string;
  tokens_used : pyobj;
  processing_time : Q;
  context_documents_found : nat
}.

Record RAGPipeline := {
  model_slug : string;
  api_key : string;
  api_url : string;
  http_referer : string;
  app_title : string;
  request_timeout : Z;
  use_mock_llm : bool
}.

Definition nl : string := String (ascii_of_nat 10) EmptyString.
Definition dquote : string := String (ascii_of_nat 34) EmptyString.

(** [sep.join(parts)] *)
Fixpoint join (sep : string) (parts : list string) : string :=
  match parts with
  | [] => ""
  | [p] => p
  | p :: rest => p ++ sep ++ join sep rest
  end.

(** [o[key]] for a string key. *)
Definition getitem_key (o : pyobj) (key : string) : result pyobj :=
  match o with
  | PyDict items =>
      match List.find (fun kv => String.eqb (fst kv) key) items with
      | Some kv => Ok (snd kv)
      | None => Raise (Exn KeyError ("'" ++ key ++ "'"))
      end
  | PyList _ => Raise (Exn TypeError "list indices must be integers or slices, not str")
  | PyStr _ => Raise (Exn TypeError "string indices must be integers, not 'str'")
  | _ => Raise (Exn TypeError "object is not subscriptable")
  end.

(** [o[0]] *)
Definition getitem_0 (o : pyobj) : result pyobj :=
  match o with
  | PyList (x :: _) => Ok x
  | PyList [] => Raise (Exn IndexError "list index out of range")
  | PyStr (String c _) => Ok (PyStr (String c EmptyString))
  | PyStr EmptyString => Raise (Exn IndexError "string index out of range")
  | PyDict _ => Raise (Exn KeyError "0")
  | _ => Raise (Exn TypeError "object is not subscriptable")
  end.

(** [o.get(key, dflt)] *)
Definition dict_get (o : pyobj) (key : string) (dflt : pyobj) : result pyobj :=
  match o with
  | PyDict items =>
      match List.find (fun kv => String.eqb (fst kv) key) items with
      | Some kv => Ok (snd kv)
      | None => Ok dflt
      end
  | _ => Raise (Exn AttributeError "object has no attribute 'get'")
  end.

(** [len(o)] *)
Definition py_len (o : pyobj) : result nat :=
  match o with
  | PyStr s => Ok (String.length s)
  | PyList l => Ok (List.length l)
  | PyDict items => Ok (List.length items)
  | _ => Raise (Exn TypeError "object has no len()")
  end.

(** [response.raise_for_status()] *)
Definition raise_for_status (response : Response) : result unit :=
  if (400 <=? status_code response) && (status_code response <? 600)
  then Raise (Exn RequestException ("HTTP Error " ++ pretty (status_code response)))
  else Ok tt.

(** [l[0]] on a list. *)
Definition list_first {A} (l : list A) : result A :=
  match l with
  | x :: _ => Ok x
  | [] => Raise (Exn IndexError "list index out of range")
  end.

(** [zip(documents, metadatas, distances)] *)
Fixpoint zip3 {A B C} (a : list A) (b : list B) (c : list C) : list (A * B * C) :=
  match a, b, c with
  | x :: a', y :: b', z :: c' => (x, y, z) :: zip3 a' b' c'
  | _, _, _ => []
  end.

Definition system_instruction : string :=
  "You are a helpful assistant that answers questions based on provided context. Always be honest about the limitations of the information available.".

Definition prompt_with_context (context_str question : string) : string :=
  "Based on the following context, answer the question. If the context doesn't contain enough information, say so clearly."
  ++ nl ++ nl ++ "Context:" ++ nl ++ context_str ++ nl ++ nl
  ++ "Question: " ++ question ++ nl ++ nl
  ++ "Please provide a helpful answer based on the context above. If you reference specific information, mention which part of the context it comes from.".

Definition prompt_without_context (question : string) : string :=
  "Question: " ++ question ++ nl ++ nl
  ++ "I don't have any specific context documents to reference. Please provide a general answer based on your knowledge, but mention that this is without specific context.".

(** [_create_error_response] *)
Definition _create_error_response (self : RAGPipeline) (error_message : string) : Answer :=
  {| answer := PyStr ("Error: " ++ error_message);
     sources := [];
     model_used := model_slug self;
     tokens_used := PyInt 0;
     processing_time := 0;
     context_documents_found := 0 |}.

(** [_format_sources]. The similarity is computed here on rationals; the
    code computes it in double precision, so the score it rounds to three
    decimals can sit one unit of the third decimal away from the one here
    when [1 - distance / 2] is half-way between two such values. *)
Definition similarity_score (distance : Q) : Q := py_max 0 (1 - distance / 2).

Definition _format_sources (documents : list string) (metadatas : list dict)
           (distances : list Q) : list Source :=
  List.map (fun '(content, metadata, distance) =>
              {| content := content;
                 score := py_round (similarity_score distance) 3;
                 metadata := metadata |})
           (zip3 documents metadatas distances).

(** [_generate_mock_answer] *)
Definition _generate_mock_answer (question : string) (context_docs : list string) : string :=
  match context_docs with
  | _ :: _ =>
      "Based on the retrieved context, I found " ++ pretty (List.length context_docs)
      ++ " relevant document(s) related to your question: "
      ++ dquote ++ PyStr.take 100 question ++ "..." ++ dquote ++ nl ++ nl
      ++ "Context summary: The documents contain information that appears relevant to your query."
      ++ nl ++ nl
      ++ "Note: This is a simulated response because no OpenRouter API key was provided. In a real deployment, this would contain an AI-generated answer based on the context documents."
  | [] =>
      "I couldn't find any relevant documents in the database for your question: "
      ++ dquote ++ PyStr.take 100 question ++ "..." ++ dquote ++ nl ++ nl
      ++ "Note: This is a simulated response because no OpenRouter API key was provided. In a real deployment, this would contain an AI-generated answer."
  end.

Section Pipeline.
Context {E vector : Type}.
(** [self.embedding_generator.generate_embeddings] *)
Variable generate_embeddings : list string -> M E (list vector).
(** [self.db_manager.search] *)
Variable db_search : vector -> Z -> M E Database.SearchResults.
(** [requests.post] *)
Variable requests_post : Request -> M E Response.
(** [time.time()] *)
Variable time_time : E -> Q.

Definition now : M (world E) Q := fun w => (Ok (time_time (env w)), w).

(** [_call_openrouter_api] *)
Definition _call_openrouter_api (self : RAGPipeline) (question : string)
           (context_docs : list string) : M (world E) (pyobj * pyobj) :=
  let prompt :=
    match context_docs with
    | _ :: _ => prompt_with_context (join (nl ++ "---" ++ nl) context_docs) question
    | [] => prompt_without_context question
    end in
  let request :=
    {| req_url := api_url self;
       req_authorization := "Bearer " ++ api_key self;
       req_content_type := "application/json";
       req_http_referer := http_referer self;
       req_x_title := app_title self;
       req_model := model_slug self;
       req_system := system_instruction;
       req_user := prompt;
       req_max_tokens := 500;
       req_temperature := 1 # 10;
       req_timeout := request_timeout self |} in
  try_except
    (response ← invoke GenerationApiCall (requests_post request);
     _ ← lift (raise_for_status response);
     data ← lift (json response);
     choices ← lift (getitem_key data "choices");
     choice ← lift (getitem_0 choices);
     message ← lift (getitem_key choice "message");
     answer ← lift (getitem_key message "content");
     usage ← lift (dict_get data "usage" (PyDict []));
     tokens_used ← lift (dict_get usage "total_tokens" (PyInt 0));
     _ ← lift (py_len answer);
     mret (answer, tokens_used))
    (fun e =>
       match exn_cls e with
       | RequestException => mret (PyStr ("API Error: " ++ exn_str e), PyInt 0)
       | KeyError => mret (PyStr "Error: Unexpected response format from API", PyInt 0)
       | _ => raise e
       end).

(** [generate_answer] *)
Definition generate_answer (self : RAGPipeline) (question : string)
           (max_results : Z) : M (world E) Answer :=
  start_time ← now;
  try_except
    (if negb (PyStr.truthy question) || negb (PyStr.truthy (PyStr.strip question))
     then mret (_create_error_response self "Question cannot be empty")
     else
       embeddings ← invoke EmbeddingGeneratorCall (generate_embeddings [question]);
       query_embedding ← lift (list_first embeddings);
       search_results ← invoke VectorStoreCall (db_search query_embedding max_results);
       let context_docs := Database.documents search_results in
       let sources := Database.metadatas search_results in
       let distances := Database.distances search_results in
       generated ← (if use_mock_llm self
                    then mret (PyStr (_generate_mock_answer question context_docs), PyInt 0)
                    else _call_openrouter_api self question context_docs);
       let '(answer, tokens_used) := generated in
       _ ← lift (py_len answer);
       end_time ← now;
       let processing_time := py_round (end_time - start_time) 2 in
       mret {| answer := answer;
               sources := _format_sources context_docs sources distances;
               model_used := model_slug self;
               tokens_used := tokens_used;
               processing_time := processing_time;
               context_documents_found := List.length context_docs |})
    (fun e =>
       mret (_create_error_response self
               ("Failed to generate answer: " ++ exn_str e))).

End Pipeline.


(** The standardized error shape. *)
Definition starts_with_error (a : pyobj) : bool :=
  match a with
  | PyStr s => PyStr.startswith "Error:" s
  | _ => false
  end.


End Rag.

(* ===================================================================== *)
(** * Sample collaborators and stores *)
(* ===================================================================== *)

Module Fixtures.
Import Database.

(** A loaded model that maps every text to the same unit vector of
    dimension three. *)
Definition unit_encoder : Embeddings.encoder :=
  fun texts => Ok (List.map (fun _ => [1%R; 0%R; 0%R]) texts).

Definition model_generator : Embeddings.EmbeddingGenerator :=
  {| Embeddings.model_name := "all-MiniLM-L6-v2";
     Embeddings.embedding_dim := 3;
     Embeddings.model := Some unit_encoder;
     Embeddings.use_fallback := false |}.

(** A generator in fallback mode, as constructed when no model loads. *)
Definition fallback_generator : Embeddings.EmbeddingGenerator :=
  {| Embeddings.model_name := "all-MiniLM-L6-v2";
     Embeddings.embedding_dim := 384;
     Embeddings.model := None;
     Embeddings.use_fallback := true |}.

(** A store holding one document, added at time 100 and read at time 200. *)
Definition sky_entry : ChromaModel.entry (list Q) :=
  {| ChromaModel.entry_document := "The sky is blue.";
     ChromaModel.entry_embedding := [1%Q; 0%Q];
     ChromaModel.entry_metadata :=
       {[ "timestamp" := PyFloat 100%Q; "text_length" := PyInt 16 ]} |}.

(** An embedding function of the collection: two coordinates read off the
    length of the text. It cannot embed the empty text. *)
Definition length_embedding (text : string) : result (list Q) :=
  if PyStr.truthy text
  then Ok [inject_Z (Z.of_nat (PyStr.len text)); 1%Q]
  else Raise (Exn ValueError "Expected a non-empty document").

Definition sky_store : ChromaModel.state (list Q) :=
  {| ChromaModel.clock := 200%Q;
     ChromaModel.embedding_function := length_embedding;
     ChromaModel.entries := {[ "doc-1" := sky_entry ]} |}.

(** A collection that is out of reach: every call raises. *)
Definition connection_lost : exn := Exn OtherException "connection lost".

Definition broken_collection : Collection unit (list Q) :=
  {| coll_get := fun _ _ => raise connection_lost;
     coll_add := fun _ _ _ _ => raise connection_lost;
     coll_update := fun _ _ _ _ => raise connection_lost;
     coll_delete := fun _ => raise connection_lost;
     coll_query := fun _ _ _ => raise connection_lost |}.

End Fixtures.

Module RagFixtures.
Import Rag.

(** A pipeline in live mode (an API key is configured). *)
Definition live_pipeline : RAGPipeline :=
  {| model_slug := "openai/gpt-3.5-turbo";
     api_key := "sk-or-test";
     api_url := "https://openrouter.ai/api/v1/chat/completions";
     http_referer := "https://github.com/your-username/rag-system";
     app_title := "RAG System";
     request_timeout := 30;
     use_mock_llm := false |}.

(** An embedding generator and a store that answer, the store with one
    document at distance 1/2. *)
Definition embed_ok : list string -> M unit (list (list Q)) :=
  fun texts => ret (List.map (fun _ => [1%Q; 0%Q]) texts).

Definition search_one : list Q -> Z -> M unit Database.SearchResults :=
  fun _ _ => ret {| Database.documents := ["The sky is blue."];
                    Database.distances := [1 # 2];
                    Database.metadatas := [{[ "topic" := PyStr "sky" ]}];
                    Database.ids := ["doc-1"] |}.


(** A generation API that cannot be reached. *)
Definition post_times_out : Request -> M unit Response :=
  fun _ => raise (Exn RequestException "Read timed out.").

Definition clock_zero : unit -> Q := fun _ => 0%Q.

Definition fresh : world unit := {| calls := []; env := tt |}.

End RagFixtures.

(* ===================================================================== *)
(** * app/embeddings.py: loading the model *)
(* ===================================================================== *)

Module EmbeddingsInit.
Import Embeddings.

(** A loaded [SentenceTransformer]: its [encode] as [_load_model] calls it
    on the test sentence ([convert_to_numpy=True] only), and as
    [_generate_model_embeddings] calls it (normalized, converted to
    lists). *)
Record SentenceTransformer := {
  encode_plain : list string -> result (list vector);
  encode_normalized : encoder
}.

(** [_fallback_to_simple_embeddings] *)
Definition _fallback_to_simple_embeddings (self : EmbeddingGenerator)
  : EmbeddingGenerator :=
  {| model_name := model_name self;
     embedding_dim := 384;
     model := None;
     use_fallback := true |}.

(** [_load_model]. [load] is the constructor [SentenceTransformer(name)].
    The two [except] clauses differ in what they log only. *)
Definition _load_model (load : string -> result SentenceTransformer)
           (self : EmbeddingGenerator) : EmbeddingGenerator :=
  match load (model_name self) with
  | Raise _ => _fallback_to_simple_embeddings self
  | Ok m =>
      let self := {| model_name := model_name self;
                     embedding_dim := embedding_dim self;
                     model := Some (encode_normalized m);
                     use_fallback := false |} in
      match encode_plain m ["test"] with
      | Raise _ => _fallback_to_simple_embeddings self
      | Ok [] => _fallback_to_simple_embeddings self (* IndexError *)
      | Ok (first :: _) =>
          {| model_name := model_name self;
             embedding_dim := List.length first;
             model := model self;
             use_fallback := use_fallback self |}
      end
  end.

(** The fields as [__init__] sets them before it loads the model. *)
Definition initial (name : string) : EmbeddingGenerator :=
  {| model_name := name; embedding_dim := 384; model := None; use_fallback := true |}.

(** [get_embedding_dimension] *)
Definition get_embedding_dimension (self : EmbeddingGenerator) : nat :=
  embedding_dim self.

End EmbeddingsInit.

(* ===================================================================== *)
(** * app/database.py: statistics and bulk insertion *)
(* ===================================================================== *)

Module DatabaseExt.
Import Database.

(** What [get_collection_stats] returns. *)
Record Stats := {
  document_count : Z;
  collection_name : string
}.

(** The [metadata] entry of a document of [bulk_add_documents]: absent,
    [None], or a dictionary. *)
Inductive meta_field (A : Type) :=
| MetaAbsent
| MetaNone
| MetaDict (d : A).
Arguments MetaAbsent {A}.
Arguments MetaNone {A}.
Arguments MetaDict {A} d.

(** A document of [bulk_add_documents]: a dictionary that may lack the
    keys the code reads. *)
Record BulkDocument (vector : Type) := {
  bulk_text : option string;
  bulk_embedding : option vector;
  bulk_metadata : meta_field dict
}.
Arguments bulk_text {vector}.
Arguments bulk_embedding {vector}.
Arguments bulk_metadata {vector}.

(** The lists the loop of [bulk_add_documents] fills. *)
Record BulkLists (vector : Type) := {
  ids_to_add : list pyid;
  texts_to_add : list string;
  embeddings_to_add : list vector;
  metadatas_to_add : list dict;
  added_ids : list pyid;
  skipped_count : nat
}.
Arguments ids_to_add {vector}.
Arguments texts_to_add {vector}.
Arguments embeddings_to_add {vector}.
Arguments metadatas_to_add {vector}.
Arguments added_ids {vector}.
Arguments skipped_count {vector}.

(** What the loop keeps: the ids to add are the ids reported as added,
    and the four lists handed to the collection have one length. *)
Definition aligned {vector : Type} (acc : BulkLists vector) : Prop :=
  added_ids acc = ids_to_add acc
  /\ List.length (texts_to_add acc) = List.length (ids_to_add acc)
  /\ List.length (embeddings_to_add acc) = List.length (ids_to_add acc)
  /\ List.length (metadatas_to_add acc) = List.length (ids_to_add acc).

(** [doc[key]] *)
Definition require {A} (key : string) (field : option A) : result A :=
  match field with
  | Some x => Ok x
  | None => Raise (Exn KeyError ("'" ++ key ++ "'"))
  end.

Section Manager.
Context {E vector : Type}.
Variable collection : Collection E vector.
(** [self.collection.count()] and [self.collection.name] *)
Variable coll_count : M E Z.
Variable coll_name : string.
Variable time_time : E -> Q.
Variable py_hash : string -> Z.
Variable str_dict : dict -> string.

(** [get_collection_stats] *)
Definition get_collection_stats : M E Stats :=
  try_except
    (count ← coll_count;
     mret {| document_count := count; collection_name := coll_name |})
    (fun _ => mret {| document_count := 0; collection_name := "unknown" |}).

(** One turn of the loop of [bulk_add_documents]. *)
Definition bulk_step (allow_duplicates : bool) (acc : BulkLists vector)
           (doc : BulkDocument vector) : M E (BulkLists vector) :=
  text ← lift (require "text" (bulk_text doc));
  embedding ← lift (require "embedding" (bulk_embedding doc));
  let metadata :=
    match bulk_metadata doc with
    | MetaAbsent => Some ∅
    | MetaNone => None
    | MetaDict d => Some d
    end in
  let doc_id := _generate_document_id py_hash str_dict text metadata in
  let append : M E (BulkLists vector) :=
    match metadata with
    | None => raise (Exn AttributeError
                         "'NoneType' object has no attribute 'update'")
    | Some metadata =>
        t ← now time_time;
        let metadata :=
          <["text_length" := PyInt (Z.of_nat (PyStr.len text))]>
            (<["timestamp" := PyFloat t]> metadata) in
        mret {| ids_to_add := ids_to_add acc ++ [doc_id];
                texts_to_add := texts_to_add acc ++ [text];
                embeddings_to_add := embeddings_to_add acc ++ [embedding];
                metadatas_to_add := metadatas_to_add acc ++ [metadata];
                added_ids := added_ids acc ++ [doc_id];
                skipped_count := skipped_count acc |}
    end in
  if allow_duplicates then append
  else
    duplicate ← _document_exists collection doc_id;
    if (duplicate : bool)
    then mret {| ids_to_add := ids_to_add acc;
                 texts_to_add := texts_to_add acc;
                 embeddings_to_add := embeddings_to_add acc;
                 metadatas_to_add := metadatas_to_add acc;
                 added_ids := added_ids acc;
                 skipped_count := S (skipped_count acc) |}
    else append.

Fixpoint bulk_loop (allow_duplicates : bool) (documents : list (BulkDocument vector))
         (acc : BulkLists vector) : M E (BulkLists vector) :=
  match documents with
  | [] => mret acc
  | doc :: rest =>
      acc ← bulk_step allow_duplicates acc doc;
      bulk_loop allow_duplicates rest acc
  end.

(** [bulk_add_documents] *)
Definition bulk_add_documents (documents : list (BulkDocument vector))
           (allow_duplicates : bool) : M E (list pyid) :=
  try_except
    (acc ← bulk_loop allow_duplicates documents
             {| ids_to_add := []; texts_to_add := []; embeddings_to_add := [];
                metadatas_to_add := []; added_ids := []; skipped_count := 0 |};
     _ ← match ids_to_add acc with
         | [] => mret tt
         | _ => coll_add collection (ids_to_add acc) (texts_to_add acc)
                         (embeddings_to_add acc) (metadatas_to_add acc)
         end;
     mret (added_ids acc))
    (fun e => raise (Exn RuntimeError ("Bulk add failed: " ++ exn_str e))).

End Manager.

End DatabaseExt.

(* ===================================================================== *)
(** * app/models.py: the validators of the request models *)
(* ===================================================================== *)

Module Models.

(** The body shared by [validate_text], [validate_query] and
    [validate_question]: a blank value is refused with [message], any other
    is returned stripped. *)
Definition validate_nonblank (message : string) (v : string) : result string :=
  if negb (PyStr.truthy v) || negb (PyStr.truthy (PyStr.strip v))
  then Raise (Exn ValueError message)
  else Ok (PyStr.strip v).

(** [DocumentRequest.validate_text] *)
Definition validate_text : string -> result string :=
  validate_nonblank "Text cannot be empty".

(** [SearchRequest.validate_query] *)
Definition validate_query : string -> result string :=
  validate_nonblank "Query cannot be empty".

(** [ChatRequest.validate_question] *)
Definition validate_question : string -> result string :=
  validate_nonblank "Question cannot be empty".

End Models.

Module MoreFixtures.
Import Database DatabaseExt.

(** A sentence-transformer of dimension three. *)
Definition tiny_model : EmbeddingsInit.SentenceTransformer :=
  {| EmbeddingsInit.encode_plain :=
       fun texts => Ok (List.map (fun _ => [3%R; 4%R; 0%R]) texts);
     EmbeddingsInit.encode_normalized := Fixtures.unit_encoder |}.

(** A generator in model mode whose model fails on every call. *)
Definition broken_generator : Embeddings.EmbeddingGenerator :=
  {| Embeddings.model_name := "all-MiniLM-L6-v2";
     Embeddings.embedding_dim := 3;
     Embeddings.model := Some (fun _ => Raise (Exn RuntimeError "CUDA out of memory"));
     Embeddings.use_fallback := false |}.

(** A pipeline in mock mode (no API key is configured). *)
Definition mock_pipeline : Rag.RAGPipeline :=
  {| Rag.model_slug := "openai/gpt-3.5-turbo";
     Rag.api_key := "";
     Rag.api_url := "https://openrouter.ai/api/v1/chat/completions";
     Rag.http_referer := "https://github.com/your-username/rag-system";
     Rag.app_title := "RAG System";
     Rag.request_timeout := 30;
     Rag.use_mock_llm := true |}.

(** A generation API that answers 200 with a body without choices, and
    one that answers 503. *)
Definition post_no_choices : Rag.Request -> M unit Rag.Response :=
  fun _ => ret {| Rag.status_code := 200;
                  Rag.json := Ok (PyDict [("error", PyStr "overloaded")]) |}.

Definition post_empty_choices : Rag.Request -> M unit Rag.Response :=
  fun _ => ret {| Rag.status_code := 200;
                  Rag.json := Ok (PyDict [("choices", PyList [])]) |}.

Definition post_unavailable : Rag.Request -> M unit Rag.Response :=
  fun _ => ret {| Rag.status_code := 503; Rag.json := Ok PyNone |}.

Definition two_documents : list (BulkDocument (list Q)) :=
  [ {| bulk_text := Some "The sky is blue."; bulk_embedding := Some [1%Q; 0%Q];
       bulk_metadata := MetaDict {[ "topic" := PyStr "sky" ]} |};
    {| bulk_text := Some "Grass is green."; bulk_embedding := Some [0%Q; 1%Q];
       bulk_metadata := MetaAbsent |} ].

End MoreFixtures.

(* ===================================================================== *)
(** * Checks of the Python layer *)
(* ===================================================================== *)

Example sha256_abc :
  Sha256.hexdigest (PyStr.encode "abc")
  = "ba7816bf8f01cfea414140de5dae2223b00361a396177a9cb410ff61f20015ad".
Proof. vm_compute. reflexivity. Qed.

Example sha256_empty :
  Sha256.hexdigest []
  = "e3b0c44298fc1c149afbf4c8996fb92427ae41e4649b934ca495991b7852b855".
Proof. vm_compute. reflexivity. Qed.

Example sha256_two_blocks :
  Sha256.hexdigest
    (PyStr.encode "abcdbcdecdefdefgefghfghighijhijkijkljklmklmnlmnomnopnopq")
  = "248d6a61d20638b8e5c026930c3e6039a33ce45964ff2167f6ecedd419db06c1".
Proof. vm_compute. reflexivity. Qed.

Example py_round_examples :
  py_round (12345 # 10000) 3 = (617 # 500)%Q
  /\ py_round (5 # 10000) 3 = 0%Q
  /\ py_round (15 # 10000) 3 = (1 # 500)%Q
  /\ py_round (-(1 # 3)) 2 = (-(33 # 100))%Q.
Proof. vm_compute. repeat split; reflexivity. Qed.


(* ===================================================================== *)
(** * Facts about strings and the digest *)
(* ===================================================================== *)

Module PyStrFacts.
Import PyStr.

Lemma isspace_lower_char c : isspace (lower_char c) = isspace c.
Proof. destruct c as [[] [] [] [] [] [] [] []]; reflexivity. Qed.

Lemma lstrip_lower s : lstrip (lower s) = lower (lstrip s).
Proof.
  induction s as [|c s IH]; simpl; [reflexivity|].
  rewrite isspace_lower_char. destruct (isspace c); [exact IH | reflexivity].
Qed.

Lemma rstrip_lower s : rstrip (lower s) = lower (rstrip s).
Proof.
  induction s as [|c s IH]; simpl; [reflexivity|].
  rewrite IH, isspace_lower_char.
  destruct (rstrip s); simpl; [destruct (isspace c)|]; reflexivity.
Qed.

Lemma strip_lower s : strip (lower s) = lower (strip s).
Proof. unfold strip. now rewrite lstrip_lower, rstrip_lower. Qed.

Lemma truthy_lower s : truthy (lower s) = truthy s.
Proof. destruct s; reflexivity. Qed.

Lemma truthy_strip_lower s : truthy (strip (lower s)) = truthy (strip s).
Proof. now rewrite strip_lower, truthy_lower. Qed.

Lemma truthy_len s : truthy s = true <-> (0 < len s)%nat.
Proof. destruct s; simpl; split; intros; (lia || congruence). Qed.

Lemma truthy_false s : truthy s = false <-> s = "".
Proof. destruct s; simpl; split; congruence. Qed.

Lemma get_lt s i : (i < len s)%nat -> exists c, String.get i s = Some c.
Proof.
  revert i; induction s as [|c s IH]; simpl; intros i Hi; [lia|].
  destruct i; [eauto | apply IH; lia].
Qed.
End PyStrFacts.

Module Sha256Facts.
Import Sha256.

Lemma land255_range x : 0 <= Z.land x 255 < 256.
Proof.
  change 255 with (Z.ones 8). rewrite Z.land_ones by lia.
  apply Z.mod_pos_bound. lia.
Qed.

Lemma digest_length msg : List.length (digest msg) = 32%nat.
Proof. reflexivity. Qed.

Lemma digest_bytes msg : List.Forall (fun b => 0 <= b < 256) (digest msg).
Proof.
  unfold digest. set (s := blocks _ _ _). clearbody s.
  cbn [List.flat_map be_bytes List.seq List.rev List.map List.app].
  repeat (constructor; [apply land255_range|]). constructor.
Qed.

Lemma hex_of_bytes_length bs :
  String.length (hex_of_bytes bs) = (2 * List.length bs)%nat.
Proof. induction bs as [|b bs IH]; simpl; [reflexivity | rewrite IH; lia]. Qed.

Lemma hexdigest_length msg : String.length (hexdigest msg) = 64%nat.
Proof. unfold hexdigest. now rewrite hex_of_bytes_length, digest_length. Qed.

Lemma hex_of_bytes_pair bs j :
  (j < List.length bs)%nat ->
  String.substring (2 * j) 2 (hex_of_bytes bs) = hex_pair (List.nth j bs 0).
Proof.
  revert bs; induction j as [|j IH]; intros [|b bs] Hj; simpl in Hj; try lia.
  - simpl. now destruct (hex_of_bytes bs).
  - replace (2 * S j)%nat with (S (S (2 * j))) by lia.
    simpl hex_of_bytes. cbn [String.substring List.nth].
    apply IH. lia.
Qed.

Lemma int16_hex_pair b :
  0 <= b < 256 -> Embeddings.int16 (hex_pair b) = Ok b.
Proof.
  intros Hb.
  assert (Hall : forallb (fun n =>
             match Embeddings.int16 (hex_pair (Z.of_nat n)) with
             | Ok m => m =? Z.of_nat n
             | Raise _ => false
             end) (List.seq 0 256) = true) by (vm_compute; reflexivity).
  rewrite forallb_forall in Hall.
  specialize (Hall (Z.to_nat b)).
  rewrite Z2Nat.id in Hall by lia.
  assert (Hin : In (Z.to_nat b) (List.seq 0 256)) by (apply in_seq; lia).
  specialize (Hall Hin).
  destruct (Embeddings.int16 (hex_pair b)) as [m|]; [|discriminate].
  apply Z.eqb_eq in Hall. now subst.
Qed.

(** Reading the [j]-th pair of the hexadecimal digest gives the [j]-th
    byte of the digest. *)
Lemma int16_hexdigest_pair msg j :
  (j < 32)%nat ->
  Embeddings.int16 (String.substring (2 * j) 2 (hexdigest msg))
  = Ok (List.nth j (digest msg) 0).
Proof.
  intros Hj. unfold hexdigest.
  rewrite hex_of_bytes_pair by (rewrite digest_length; exact Hj).
  apply int16_hex_pair.
  pose proof (digest_bytes msg) as HF. rewrite List.Forall_forall in HF.
  apply HF, List.nth_In. rewrite digest_length. exact Hj.
Qed.
End Sha256Facts.

(* ===================================================================== *)
(** * The embedding generator *)
(* ===================================================================== *)

Module EmbeddingsFacts.
Import Embeddings FallbackSpec.
Local Open Scope R_scope.

Lemma py_range_pairs D :
  py_range 0 (Nat.min 64 (D * 2)) 2
  = List.map (fun j => (2 * j)%nat) (List.seq 0 (Nat.min 32 D)).
Proof.
  unfold py_range.
  replace ((Nat.min 64 (D * 2) - 0 + (2 - 1)) / 2)%nat with (Nat.min 32 D).
  - apply List.map_ext. intros k. lia.
  - replace (Nat.min 64 (D * 2) - 0 + (2 - 1))%nat
      with (1 + Nat.min 32 D * 2)%nat by lia.
    rewrite Nat.div_add by lia. reflexivity.
Qed.

Lemma hashed_value_code t n c :
  (sin ((IZR n / 255 * (6 / 10) + IZR (PyStr.ord c) / 255 * (3 / 10)
         + ln (INR (PyStr.len t + 1)) / 10 * (1 / 10)) * PI * 2) + 1) / 2
  = (sin (2 * PI * (6 / 10 * (IZR n / 255) + 3 / 10 * (IZR (PyStr.ord c) / 255)
                    + 1 / 10 * (ln (INR (String.length t) + 1) / 10))) + 1) / 2.
Proof.
  unfold PyStr.len. rewrite plus_INR. simpl (INR 1).
  f_equal. f_equal. f_equal. field.
Qed.

Lemma py_mod_pos a b : (0 < b)%nat -> py_mod a b = Ok (a mod b)%nat.
Proof. destruct b; [lia | reflexivity]. Qed.

(** The first loop computes the hash-fed values of the positions it
    visits, in order. *)
Lemma hash_loop_spec D t m : forall k emb,
  List.length emb = k ->
  (k + m <= Nat.min 32 D)%nat ->
  (0 < PyStr.len t)%nat ->
  hash_loop D (Sha256.hexdigest (PyStr.encode t)) t
            (List.map (fun j => (2 * j)%nat) (List.seq k m)) emb
  = Ok (emb ++ List.map (hashed_value t) (List.seq k m)).
Proof.
  induction m as [|m IH]; intros k emb Hlen Hk Ht.
  - simpl. now rewrite List.app_nil_r.
  - cbn [List.seq List.map hash_loop].
    replace (D <=? List.length emb)%nat with false
      by (symmetry; apply Nat.leb_gt; lia).
    rewrite Sha256Facts.int16_hexdigest_pair by lia.
    cbn [mbind result_bind]. rewrite Hlen.
    rewrite py_mod_pos by exact Ht. cbn [mbind result_bind].
    destruct (PyStrFacts.get_lt t (k mod PyStr.len t)) as [c Hc].
    { apply Nat.mod_upper_bound. lia. }
    unfold str_index, PyStr.getitem. rewrite Hc. cbn [mbind result_bind].
    rewrite IH by (rewrite ?List.length_app; cbn [List.length]; lia).
    rewrite <- List.app_assoc. cbn [List.app].
    do 3 f_equal. unfold hashed_value, hash_pairs, ord_at.
    unfold PyStr.len in Hc. rewrite Hc. apply hashed_value_code.
Qed.

(** The second loop appends the filler values up to the dimension. *)
Lemma fill_loop_spec dim text_lower embedding :
  fill_loop dim text_lower embedding
  = embedding ++ List.map (filler_value text_lower)
      (List.seq (List.length embedding) (dim - List.length embedding)).
Proof.
  funelim (fill_loop dim text_lower embedding).
  - rewrite H. rewrite List.length_app. cbn [List.length].
    replace (dim - List.length embedding)%nat
      with (S (dim - (List.length embedding + 1)))%nat by lia.
    cbn [List.seq List.map]. rewrite <- List.app_assoc. cbn [List.app].
    replace (List.length embedding + 1)%nat with (S (List.length embedding)) by lia.
    do 2 f_equal. unfold filler_value, PyStr.len. now rewrite mult_INR.
  - replace (dim - List.length embedding)%nat with 0%nat by lia.
    simpl. now rewrite List.app_nil_r.
Qed.

Lemma components_split D t :
  List.map (component t) (List.seq 0 D)
  = List.map (hashed_value t) (List.seq 0 (Nat.min 32 D))
    ++ List.map (filler_value t) (List.seq (Nat.min 32 D) (D - Nat.min 32 D)).
Proof.
  replace D with (Nat.min 32 D + (D - Nat.min 32 D))%nat at 1 by lia.
  rewrite List.seq_app, List.map_app. f_equal.
  - apply List.map_ext_in. intros i Hi. apply List.in_seq in Hi.
    unfold component, hash_pairs. rewrite Sha256Facts.digest_length.
    replace (i <? 32)%nat with true; [reflexivity|].
    symmetry. apply Nat.ltb_lt. lia.
  - apply List.map_ext_in. intros i Hi. apply List.in_seq in Hi.
    unfold component, hash_pairs. rewrite Sha256Facts.digest_length.
    replace (i <? 32)%nat with false; [reflexivity|].
    symmetry. apply Nat.ltb_ge. lia.
Qed.

Lemma sum_squares_acc v : forall a,
  List.fold_left (fun acc x => acc + x * x) v a
  = a + List.fold_right Rplus 0 (List.map (fun x => x * x) v).
Proof.
  induction v as [|x v IH]; intros a; simpl; [lra|]. rewrite IH. lra.
Qed.

Lemma sqrt_sum_squares v : sqrt (sum_squares v) = l2_norm v.
Proof. unfold sum_squares, l2_norm. rewrite sum_squares_acc. f_equal. lra. Qed.

Lemma normalize_code v :
  (if Rlt_dec 0 (sqrt (sum_squares v))
   then List.map (fun x => x / sqrt (sum_squares v)) v else v)
  = l2_normalize v.
Proof.
  rewrite sqrt_sum_squares. unfold l2_normalize.
  pose proof (sqrt_pos (List.fold_right Rplus 0 (List.map (fun x => x * x) v))) as Hpos.
  fold (l2_norm v) in Hpos.
  destruct (Rlt_dec 0 (l2_norm v)), (Req_dec_T (l2_norm v) 0); try reflexivity; lra.
Qed.

Lemma l2_normalize_length v : List.length (l2_normalize v) = List.length v.
Proof.
  unfold l2_normalize. destruct (Req_dec_T _ _); [reflexivity|].
  apply List.length_map.
Qed.

Lemma fallback_embed_length D text : List.length (fallback_embed D text) = D.
Proof.
  unfold fallback_embed. destruct (normalize text).
  - apply List.repeat_length.
  - now rewrite l2_normalize_length, List.length_map, List.length_seq.
Qed.

(** For every text the body of the fallback loop returns, and what it
    returns is the vector of the design document. *)
Lemma fallback_embedding_spec D text :
  fallback_embedding D text = Ok (fallback_embed D text).
Proof.
  unfold fallback_embedding, fallback_embed, normalize.
  destruct (PyStr.truthy (PyStr.strip text)) eqn:Etext; cbn [negb].
  - pose proof (PyStrFacts.truthy_strip_lower text) as Hl. rewrite Etext in Hl.
    set (t := PyStr.strip (PyStr.lower text)) in *.
    assert (Ht : (0 < PyStr.len t)%nat) by now apply PyStrFacts.truthy_len.
    unfold PyStr.len at 1. rewrite Sha256Facts.hexdigest_length, py_range_pairs.
    rewrite (hash_loop_spec D t (Nat.min 32 D) 0 []) by (simpl; lia || assumption).
    cbn [mbind result_bind List.app].
    rewrite fill_loop_spec, List.length_map, List.length_seq.
    rewrite <- components_split, normalize_code.
    rewrite List.firstn_all2
      by now rewrite l2_normalize_length, List.length_map, List.length_seq.
    destruct t; [discriminate Hl | reflexivity].
  - pose proof (PyStrFacts.truthy_strip_lower text) as Hl. rewrite Etext in Hl.
    apply PyStrFacts.truthy_false in Hl. now rewrite Hl.
Qed.

Lemma fallback_texts_loop_spec D texts : forall embeddings,
  fallback_texts_loop D texts embeddings
  = Ok (embeddings ++ List.map (fallback_embed D) texts).
Proof.
  induction texts as [|text texts IH]; intros embeddings; simpl.
  - now rewrite List.app_nil_r.
  - rewrite fallback_embedding_spec. cbn [mbind result_bind].
    rewrite IH, <- List.app_assoc. reflexivity.
Qed.

Lemma generate_fallback_spec self texts :
  _generate_fallback_embeddings self texts
  = Ok (List.map (fallback_embed (embedding_dim self)) texts).
Proof. unfold _generate_fallback_embeddings. now rewrite fallback_texts_loop_spec. Qed.

Lemma fallback_embed_blank D text :
  PyStr.truthy (PyStr.strip text) = false -> fallback_embed D text = zeros D.
Proof.
  intros H. unfold fallback_embed, normalize.
  rewrite <- PyStrFacts.truthy_strip_lower in H.
  apply PyStrFacts.truthy_false in H. now rewrite H.
Qed.

End EmbeddingsFacts.

Module EmbeddingsSpec.
Import Embeddings FallbackSpec EmbeddingsFacts.
Local Open Scope R_scope.

(** ** Fallback mode keeps one vector per input *)

Lemma all_blank_filter texts :
  List.map PyStr.strip
    (List.filter (fun text => PyStr.truthy (PyStr.strip text)) texts) = [] ->
  List.Forall (fun text => PyStr.truthy (PyStr.strip text) = false) texts.
Proof.
  induction texts as [|t ts IH]; simpl; intros H; [constructor|].
  destruct (PyStr.truthy (PyStr.strip t)) eqn:E; [discriminate|].
  constructor; auto.
Qed.

(** In fallback mode [generate_embeddings] returns the vectors of the
    design document, one per input text and in the order of the input. *)
Lemma generate_embeddings_fallback self texts :
  use_fallback self = true ->
  generate_embeddings self texts
  = Ok (List.map (fallback_embed (embedding_dim self)) texts).
Proof.
  intros Hfb. unfold generate_embeddings.
  destruct texts as [|t0 ts]; [reflexivity|].
  destruct (List.map PyStr.strip _) eqn:Eproc.
  - f_equal. apply List.map_ext_in. intros t Ht.
    apply all_blank_filter in Eproc. rewrite List.Forall_forall in Eproc.
    symmetry. apply fallback_embed_blank. now apply Eproc.
  - rewrite Hfb, generate_fallback_spec. reflexivity.
Qed.

Lemma generate_embeddings_fallback_shape self texts :
  use_fallback self = true ->
  exists vs,
    generate_embeddings self texts = Ok vs
    /\ List.length vs = List.length texts
    /\ forall i text,
         List.nth_error texts i = Some text ->
         PyStr.truthy (PyStr.strip text) = false ->
         List.nth_error vs i = Some (zeros (embedding_dim self)).
Proof.
  intros Hfb. eexists. split; [now apply generate_embeddings_fallback|].
  split; [apply List.length_map|].
  intros i text Hi Hblank.
  rewrite List.nth_error_map, Hi. simpl. f_equal.
  now apply fallback_embed_blank.
Qed.

(** ** Model mode *)

(** C2 (the code departs from it in model mode): with a loaded model that
    returns one vector per text it is given, [generate_embeddings] called
    on the two texts ["hello"] and ["  "] returns a single vector: the
    whitespace-only text was filtered out before the call to the model, and
    nothing stands at its position. *)
Theorem generate_embeddings_model_mode_drops_blank
        (self : EmbeddingGenerator) (encode : encoder) :
  model self = Some encode ->
  use_fallback self = false ->
  (forall ts, exists vs, encode ts = Ok vs /\ List.length vs = List.length ts) ->
  exists vs,
    generate_embeddings self ["hello"; "  "] = Ok vs
    /\ List.length vs = 1%nat
    /\ List.length ["hello"; "  "] = 2%nat.
Proof.
  intros Hmodel Hfb Henc.
  destruct (Henc ["hello"]) as (vs & Hvs & Hlen).
  exists vs. unfold generate_embeddings. cbn [List.filter List.map].
  change (PyStr.truthy (PyStr.strip "hello")) with true.
  change (PyStr.truthy (PyStr.strip "  ")) with false.
  cbn [List.filter List.map]. rewrite Hfb.
  unfold _generate_model_embeddings. rewrite Hmodel.
  change (PyStr.strip "hello") with "hello". rewrite Hvs.
  repeat split; assumption.
Qed.

Lemma generate_embeddings_model_mode_drops_blank_witness :
  exists vs,
    generate_embeddings Fixtures.model_generator ["hello"; "  "] = Ok vs
    /\ List.length vs = 1%nat
    /\ List.length ["hello"; "  "] = 2%nat.
Proof.
  apply (generate_embeddings_model_mode_drops_blank Fixtures.model_generator Fixtures.unit_encoder).
  - reflexivity.
  - reflexivity.
  - intros ts. eexists. split; [reflexivity|]. apply List.length_map.
Defined.

(** ** The fallback algorithm *)

(** C4: for a text that is not whitespace only, with [t] its lower-cased and
    stripped form, the fallback returns the L2-normalized vector of the
    values [component t 0 .. component t (D-1)]; below 32 (the number of
    byte-pairs of the SHA-256 digest of [t]) the value is
    [(sin(2*pi*(0.6*base + 0.3*char_val + 0.1*length_factor)) + 1) / 2] with
    [base] the [i]-th byte of the digest over 255, [char_val] the ordinal of
    the character of [t] at [i mod len(t)] over 255 and [length_factor] the
    value [ln(len(t) + 1) / 10]; from 32 on it is
    [(sin(pos * len(t) / 100) + 1) / 2]; a vector of magnitude zero is left
    as it is, and the result has exactly [D] entries. *)
Theorem fallback_embedding_follows_algorithm (D : nat) (text : string) :
  PyStr.truthy (PyStr.strip text) = true ->
  let t := PyStr.strip (PyStr.lower text) in
  let digest := Sha256.digest (PyStr.encode t) in
  let v := List.map (component t) (List.seq 0 D) in
  let magnitude := sqrt (List.fold_right Rplus 0 (List.map (fun x => x * x) v)) in
  exists embedding,
    fallback_embedding D text = Ok embedding
    /\ (forall self, embedding_dim self = D ->
           _generate_fallback_embeddings self [text] = Ok [embedding])
    /\ List.length embedding = D
    /\ embedding = (if Req_dec_T magnitude 0 then v
                    else List.map (fun x => x / magnitude) v)
    /\ List.length digest = 32%nat
    /\ (forall i, (i < 32)%nat ->
          component t i
          = (sin (2 * PI * (6 / 10 * (IZR (List.nth i digest 0%Z) / 255)
                            + 3 / 10 * (IZR (ord_at t (i mod String.length t)) / 255)
                            + 1 / 10 * (ln (INR (String.length t) + 1) / 10))) + 1) / 2)
    /\ (forall pos, (32 <= pos)%nat ->
          component t pos = (sin (INR pos * INR (String.length t) / 100) + 1) / 2).
Proof.
  intros Htext t digest v magnitude.
  exists (fallback_embed D text).
  split; [apply fallback_embedding_spec|].
  split; [intros self <-; apply generate_fallback_spec|].
  split; [apply fallback_embed_length|].
  split.
  - unfold fallback_embed, normalize. fold t.
    pose proof (PyStrFacts.truthy_strip_lower text) as Hl.
    rewrite Htext in Hl. fold t in Hl.
    destruct t; [discriminate Hl | reflexivity].
  - split; [apply Sha256Facts.digest_length|].
    split; intros i Hi; unfold component, hash_pairs;
      rewrite Sha256Facts.digest_length.
    + replace (i <? 32)%nat with true by (symmetry; apply Nat.ltb_lt; lia).
      reflexivity.
    + replace (i <? 32)%nat with false by (symmetry; apply Nat.ltb_ge; lia).
      reflexivity.
Qed.

Lemma fallback_embedding_follows_algorithm_witness :
  PyStr.truthy (PyStr.strip " What is RAG? ") = true
  /\ exists embedding,
       fallback_embedding 384 " What is RAG? " = Ok embedding
       /\ List.length embedding = 384%nat.
Proof.
  split; [reflexivity|].
  destruct (fallback_embedding_follows_algorithm 384 " What is RAG? " eq_refl)
    as (embedding & Hrun & _ & Hlen & _).
  exists embedding. split; assumption.
Defined.

(** ** Collisions of the fallback *)

(** The fallback sees a text only through its lower-cased, stripped form. *)
Lemma fallback_embed_normal_form D t1 t2 :
  normalize t1 = normalize t2 -> fallback_embed D t1 = fallback_embed D t2.
Proof. intros H. unfold fallback_embed. now rewrite H. Qed.

Lemma fallback_embedding_normal_form D t1 t2 :
  normalize t1 = normalize t2 ->
  fallback_embedding D t1 = fallback_embedding D t2.
Proof.
  intros H. rewrite !fallback_embedding_spec.
  now rewrite (fallback_embed_normal_form D t1 t2 H).
Qed.

Lemma generate_embeddings_normal_form self t1 t2 :
  use_fallback self = true ->
  normalize t1 = normalize t2 ->
  generate_embeddings self [t1] = generate_embeddings self [t2].
Proof.
  intros Hfb H. rewrite !generate_embeddings_fallback by exact Hfb.
  cbn [List.map]. now rewrite (fallback_embed_normal_form _ t1 t2 H).
Qed.

(** ["Hello"] and ["hello"] are distinct non-empty texts with the same
    fallback embedding, in the loop body and through [generate_embeddings]
    of a generator in fallback mode. *)
Lemma fallback_embedding_collision :
  "Hello" <> "hello" /\ "Hello" <> "" /\ "hello" <> ""
  /\ fallback_embedding 384 "Hello" = fallback_embedding 384 "hello"
  /\ generate_embeddings Fixtures.fallback_generator ["Hello"]
     = generate_embeddings Fixtures.fallback_generator ["hello"].
Proof.
  split; [discriminate|]. split; [discriminate|]. split; [discriminate|].
  split.
  - apply fallback_embedding_normal_form. reflexivity.
  - apply generate_embeddings_normal_form; reflexivity.
Qed.

(** The fallback does not see the case of a text nor the whitespace
    around it: two texts with the same lower-cased, stripped form get the
    same fallback embedding, from the loop body and from
    [generate_embeddings] of any generator in fallback mode. *)
Theorem fallback_embedding_equal_on_normal_form (D : nat) (t1 t2 : string) :
  PyStr.strip (PyStr.lower t1) = PyStr.strip (PyStr.lower t2) ->
  fallback_embedding D t1 = fallback_embedding D t2
  /\ (forall self, use_fallback self = true ->
         generate_embeddings self [t1] = generate_embeddings self [t2])
  /\ (forall self v1 v2,
         use_fallback self = true ->
         generate_embeddings self [t1] = Ok [v1] ->
         generate_embeddings self [t2] = Ok [v2] ->
         v1 = v2).
Proof.
  intros H. split; [now apply fallback_embedding_normal_form|].
  split; [intros self Hfb; now apply generate_embeddings_normal_form|].
  intros self v1 v2 Hfb H1 H2.
  rewrite (generate_embeddings_normal_form self t1 t2 Hfb H) in H1.
  congruence.
Qed.

Lemma fallback_embedding_equal_on_normal_form_witness :
  PyStr.strip (PyStr.lower "  Sky Color ") = PyStr.strip (PyStr.lower "sky color")
  /\ fallback_embedding 384 "  Sky Color " = fallback_embedding 384 "sky color".
Proof.
  split; [reflexivity|].
  apply (fallback_embedding_equal_on_normal_form 384 "  Sky Color " "sky color").
  reflexivity.
Defined.

End EmbeddingsSpec.

(* ===================================================================== *)
(** * The vector store manager *)
(* ===================================================================== *)

Module DatabaseSpec.
Import Database.

(** Unfolds the monad to the underlying case analysis on outcomes. *)
Ltac run_monad :=
  unfold mbind, mret, M_bind, M_ret, bind, ret, raise, try_except, lift.

Section AnyCollection.
Context {E vector : Type}.
Variable collection : Collection E vector.
Variable time_time : E -> Q.

(** The existence check never raises: an exception of the collection
    reads as "not found". *)
Lemma document_exists_total (doc_id : pyid) (e : E) :
  exists found e', _document_exists collection doc_id e = (Ok found, e').
Proof.
  unfold _document_exists. run_monad.
  destruct (coll_get collection [doc_id] default_include e) as [[r|x] e']; eauto.
Qed.

Lemma document_exists_raise (doc_id : pyid) (e e' : E) (x : exn) :
  coll_get collection [doc_id] default_include e = (Raise x, e') ->
  _document_exists collection doc_id e = (Ok false, e').
Proof. intros H. unfold _document_exists. run_monad. now rewrite H. Qed.

Lemma update_document_total doc_id text embedding metadata (e : E) :
  exists b e',
    update_document collection time_time doc_id text embedding metadata e = (Ok b, e').
Proof.
  unfold update_document.
  destruct (document_exists_total (Some doc_id) e) as (found & e1 & Hex).
  run_monad. fold (_document_exists collection (Some doc_id)). rewrite Hex.
  destruct found; cbn [negb]; [|eauto].
  destruct metadata as [md|]; unfold now;
    match goal with
    | |- context [coll_update collection ?a ?b ?c ?d ?s] =>
        destruct (coll_update collection a b c d s) as [[u|x] e2]; eauto
    end.
Qed.

Lemma update_document_check_raises doc_id text embedding metadata (e e' : E) x :
  coll_get collection [Some doc_id] default_include e = (Raise x, e') ->
  update_document collection time_time doc_id text embedding metadata e
  = (Ok false, e').
Proof.
  intros H. unfold update_document. run_monad.
  fold (_document_exists collection (Some doc_id)).
  now rewrite (document_exists_raise _ _ _ _ H).
Qed.

Lemma update_document_mutation_raises doc_id text embedding metadata (e e1 : E) :
  _document_exists collection (Some doc_id) e = (Ok true, e1) ->
  (forall docs embs mds, exists x e2,
      coll_update collection [Some doc_id] docs embs mds e1 = (Raise x, e2)) ->
  exists e2,
    update_document collection time_time doc_id text embedding metadata e
    = (Ok false, e2).
Proof.
  intros Hex Hup. unfold update_document. run_monad.
  fold (_document_exists collection (Some doc_id)). rewrite Hex. cbn [negb].
  destruct metadata as [md|]; unfold now;
    match goal with
    | |- context [coll_update collection ?a ?b ?c ?d ?s] =>
        destruct (Hup b c d) as (x & e2 & ->); eauto
    end.
Qed.


Lemma delete_document_total doc_id (e : E) :
  exists b e', delete_document collection doc_id e = (Ok b, e').
Proof.
  unfold delete_document.
  destruct (document_exists_total (Some doc_id) e) as (found & e1 & Hex).
  run_monad. fold (_document_exists collection (Some doc_id)). rewrite Hex.
  destruct found; cbn [negb]; [|eauto].
  destruct (coll_delete collection [Some doc_id] e1) as [[u|x] e2]; eauto.
Qed.

Lemma delete_document_check_raises doc_id (e e' : E) x :
  coll_get collection [Some doc_id] default_include e = (Raise x, e') ->
  delete_document collection doc_id e = (Ok false, e').
Proof.
  intros H. unfold delete_document. run_monad.
  fold (_document_exists collection (Some doc_id)).
  now rewrite (document_exists_raise _ _ _ _ H).
Qed.

Lemma delete_document_mutation_raises doc_id (e e1 e2 : E) x :
  _document_exists collection (Some doc_id) e = (Ok true, e1) ->
  coll_delete collection [Some doc_id] e1 = (Raise x, e2) ->
  delete_document collection doc_id e = (Ok false, e2).
Proof.
  intros Hex Hdel. unfold delete_document. run_monad.
  fold (_document_exists collection (Some doc_id)). rewrite Hex. cbn [negb].
  now rewrite Hdel.
Qed.

Lemma get_document_total doc_id (e : E) :
  exists r e', get_document collection doc_id e = (Ok r, e').
Proof.
  unfold get_document. run_monad.
  destruct (coll_get collection _ _ e) as [[r|x] e']; [|eauto].
  destruct (get_ids r) as [[|id0 ids]|]; eauto.
Qed.

Lemma get_document_raises doc_id (e e' : E) x :
  coll_get collection [Some doc_id] ["documents"; "metadatas"; "embeddings"] e
  = (Raise x, e') ->
  get_document collection doc_id e = (Ok None, e').
Proof. intros H. unfold get_document. run_monad. now rewrite H. Qed.

(** C10: whatever the collection does, [update_document] and
    [delete_document] return a boolean and [get_document] returns a
    document or [None]: none of them raises. When the collection raises
    during the existence check or during the mutation, the boolean is
    [False]; when it raises during the lookup of [get_document], the
    result is [None]. *)
Theorem update_delete_get_never_raise
        (doc_id : string) (text : option string) (embedding : option vector)
        (metadata : option dict) (e : E) :
  (exists b e',
      update_document collection time_time doc_id text embedding metadata e
      = (Ok b, e'))
  /\ (exists b e', delete_document collection doc_id e = (Ok b, e'))
  /\ (exists r e', get_document collection doc_id e = (Ok r, e'))
  /\ (forall x e',
         coll_get collection [Some doc_id] default_include e = (Raise x, e') ->
         update_document collection time_time doc_id text embedding metadata e
         = (Ok false, e')
         /\ delete_document collection doc_id e = (Ok false, e'))
  /\ (forall e1,
         _document_exists collection (Some doc_id) e = (Ok true, e1) ->
         (forall docs embs mds, exists x e2,
             coll_update collection [Some doc_id] docs embs mds e1 = (Raise x, e2)) ->
         exists e2,
           update_document collection time_time doc_id text embedding metadata e
           = (Ok false, e2))
  /\ (forall e1 x e2,
         _document_exists collection (Some doc_id) e = (Ok true, e1) ->
         coll_delete collection [Some doc_id] e1 = (Raise x, e2) ->
         delete_document collection doc_id e = (Ok false, e2))
  /\ (forall x e',
         coll_get collection [Some doc_id] ["documents"; "metadatas"; "embeddings"] e
         = (Raise x, e') ->
         get_document collection doc_id e = (Ok None, e')).
Proof.
  split; [apply update_document_total|].
  split; [apply delete_document_total|].
  split; [apply get_document_total|].
  split.
  { intros x e' H. split.
    - eapply update_document_check_raises; eauto.
    - eapply delete_document_check_raises; eauto. }
  split; [intros e1; apply update_document_mutation_raises|].
  split; [intros e1 x e2; apply delete_document_mutation_raises|].
  intros x e'. apply get_document_raises.
Qed.

(** ** Search *)

Lemma clamp_range k : 1 <= Z.max 1 (Z.min k MAX_SEARCH_DOCUMENTS) <= 50.
Proof. unfold MAX_SEARCH_DOCUMENTS. lia. Qed.

Lemma search_query_ok q k (e e' : E) res :
  coll_query collection [q] (Z.max 1 (Z.min k MAX_SEARCH_DOCUMENTS))
             ["documents"; "distances"; "metadatas"] e = (Ok res, e') ->
  search collection q k e
  = (Ok {| documents := first_or_empty (query_documents res);
           distances := first_or_empty (query_distances res);
           metadatas := first_or_empty (query_metadatas res);
           ids := first_or_empty (query_ids res) |}, e').
Proof.
  intros H. unfold search. run_monad. now rewrite H.
Qed.

Lemma search_query_raises q k (e e' : E) x :
  coll_query collection [q] (Z.max 1 (Z.min k MAX_SEARCH_DOCUMENTS))
             ["documents"; "distances"; "metadatas"] e = (Raise x, e') ->
  search collection q k e
  = (Raise (Exn RuntimeError ("Search failed: " ++ exn_str x)), e').
Proof.
  intros H. unfold search. run_monad. now rewrite H.
Qed.

Lemma first_or_empty_bound {A} (x : option (list (list A))) n :
  List.Forall (fun hits => (List.length hits <= n)%nat) (default [] x) ->
  (List.length (first_or_empty x) <= n)%nat.
Proof.
  destruct x as [[|l ls]|]; simpl; intros H; try lia.
  now inversion H.
Qed.

(** C9: [search] asks the collection for [max(1, min(k, 50))] results, a
    number between 1 and 50: the outcome of [search] is the outcome of
    that query. Asked for 100 it queries for 50, and asked for 0 or less
    it queries for 1. With a collection that returns at most the number
    of results it is asked for, [search] returns at most 50 documents. *)
Theorem search_clamps_result_count (q : vector) (k : Z) (e : E) :
  bounded_query collection ->
  let n := Z.max 1 (Z.min k MAX_SEARCH_DOCUMENTS) in
  1 <= n <= 50
  /\ (k = 100 -> n = 50)
  /\ (k < 1 -> n = 1)
  /\ (forall res e',
         coll_query collection [q] n ["documents"; "distances"; "metadatas"] e
         = (Ok res, e') ->
         search collection q k e
         = (Ok {| documents := first_or_empty (query_documents res);
                  distances := first_or_empty (query_distances res);
                  metadatas := first_or_empty (query_metadatas res);
                  ids := first_or_empty (query_ids res) |}, e'))
  /\ (forall x e',
         coll_query collection [q] n ["documents"; "distances"; "metadatas"] e
         = (Raise x, e') ->
         search collection q k e
         = (Raise (Exn RuntimeError ("Search failed: " ++ exn_str x)), e'))
  /\ (forall r e',
         search collection q k e = (Ok r, e') ->
         (List.length (documents r) <= Z.to_nat n)%nat
         /\ (List.length (documents r) <= 50)%nat).
Proof.
  intros Hbound n.
  assert (Hn : 1 <= n <= 50) by apply clamp_range.
  split; [exact Hn|].
  split; [unfold n, MAX_SEARCH_DOCUMENTS; lia|].
  split; [unfold n, MAX_SEARCH_DOCUMENTS; lia|].
  split; [intros res e'; apply search_query_ok|].
  split; [intros x e'; apply search_query_raises|].
  intros r e' Hrun.
  destruct (coll_query collection [q] n ["documents"; "distances"; "metadatas"] e)
    as [[res|x] e1] eqn:Hq.
  - rewrite (search_query_ok _ _ _ _ _ Hq) in Hrun. inversion Hrun; subst; clear Hrun.
    cbn [documents].
    assert ((List.length (first_or_empty (query_documents res)) <= Z.to_nat n)%nat)
      by (apply first_or_empty_bound; eapply Hbound; eauto).
    split; [assumption | lia].
  - rewrite (search_query_raises _ _ _ _ _ Hq) in Hrun. discriminate.
Qed.

End AnyCollection.

End DatabaseSpec.

(* ===================================================================== *)
(** * The manager over the reference collection *)
(* ===================================================================== *)

Module StoreSpec.
Import Database DatabaseSpec.

Section Model.
Context {vector : Type}.
Variable distance : vector -> vector -> Q.

Abbreviation state := (ChromaModel.state vector).
Abbreviation collection := (ChromaModel.collection distance).

Lemma get_one (s : state) (doc_id : string) (include : list string) :
  ChromaModel.get [Some doc_id] include s
  = (Ok (match ChromaModel.entries s !! doc_id with
         | Some en =>
             {| get_ids := Some [doc_id];
                get_documents :=
                  if ChromaModel.included "documents" include
                  then Some [ChromaModel.entry_document en] else None;
                get_metadatas :=
                  if ChromaModel.included "metadatas" include
                  then Some [ChromaModel.entry_metadata en] else None;
                get_embeddings :=
                  if ChromaModel.included "embeddings" include
                  then Some [ChromaModel.entry_embedding en] else None |}
         | None =>
             {| get_ids := Some [];
                get_documents :=
                  if ChromaModel.included "documents" include then Some [] else None;
                get_metadatas :=
                  if ChromaModel.included "metadatas" include then Some [] else None;
                get_embeddings :=
                  if ChromaModel.included "embeddings" include then Some [] else None |}
         end), s).
Proof.
  unfold ChromaModel.get, ChromaModel.found. cbn.
  destruct (ChromaModel.entries s !! doc_id); reflexivity.
Qed.

Lemma document_exists_model (s : state) (doc_id : string) :
  _document_exists collection (Some doc_id) s
  = (Ok (bool_decide (is_Some (ChromaModel.entries s !! doc_id))), s).
Proof.
  unfold _document_exists. run_monad. cbn [coll_get ChromaModel.collection].
  rewrite get_one. destruct (ChromaModel.entries s !! doc_id); reflexivity.
Qed.



Lemma stamped_timestamp t text metadata :
  ChromaModel.stamped t text metadata !! "timestamp" = Some (PyFloat t).
Proof.
  unfold ChromaModel.stamped. destruct (PyStr.truthy text).
  - rewrite lookup_insert_ne by discriminate. apply lookup_insert_eq.
  - apply lookup_insert_eq.
Qed.


(** An update that carries its embedding does not ask the collection's
    embedding function. *)
Lemma model_update_embedded (s : state) doc_id new_text embedding md en :
  ChromaModel.entries s !! doc_id = Some en ->
  update_document collection ChromaModel.clock doc_id
                  (Some new_text) (Some embedding) (Some md) s
  = (Ok true,
     {| ChromaModel.clock := ChromaModel.clock s;
        ChromaModel.embedding_function := ChromaModel.embedding_function s;
        ChromaModel.entries :=
          alter (ChromaModel.update_entry (Some new_text) (Some embedding)
                   (Some (ChromaModel.stamped (ChromaModel.clock s) new_text md))) doc_id
                (ChromaModel.entries s) |}).
Proof.
  intros Hen. unfold update_document. run_monad.
  fold (_document_exists collection (Some doc_id)).
  rewrite document_exists_model, Hen. reflexivity.
Qed.

Lemma model_update_missing (s : state) doc_id text embedding metadata :
  ChromaModel.entries s !! doc_id = None ->
  update_document collection ChromaModel.clock doc_id text embedding metadata s
  = (Ok false, s).
Proof.
  intros Hen. unfold update_document. run_monad.
  fold (_document_exists collection (Some doc_id)).
  rewrite document_exists_model, Hen. reflexivity.
Qed.

Lemma get_document_model (s : state) doc_id en :
  ChromaModel.entries s !! doc_id = Some en ->
  get_document collection doc_id s
  = (Ok (Some {| doc_id := doc_id;
                 doc_document := Some (ChromaModel.entry_document en);
                 doc_metadata := Some (ChromaModel.entry_metadata en);
                 doc_embedding := Some (ChromaModel.entry_embedding en) |}), s).
Proof.
  intros Hen. unfold get_document. run_monad. cbn [coll_get ChromaModel.collection].
  rewrite get_one, Hen. reflexivity.
Qed.

(** The identifier [None] is refused by the collection, so every
    [add_document] ends in the storage error and stores nothing. *)
Lemma add_document_model (s : state) py_hash str_dict text embedding metadata dup :
  add_document collection ChromaModel.clock py_hash str_dict
               text embedding metadata dup s
  = (Raise (Exn RuntimeError
                "Document storage failed: Expected ID to be a str, got None"), s).
Proof. destruct dup; reflexivity. Qed.

Lemma query_bounded : bounded_query collection.
Proof.
  intros qs n include e e' res. cbn [coll_query ChromaModel.collection].
  unfold ChromaModel.query. destruct (n <=? 0); [discriminate|].
  intros H. inversion H; subst; clear H. cbn [query_documents].
  destruct (ChromaModel.included "documents" include); [|constructor].
  cbn [default]. apply List.Forall_forall. intros hits Hin.
  apply List.in_map_iff in Hin as (h & <- & Hin).
  apply List.in_map_iff in Hin as (q & <- & _).
  rewrite List.length_map, List.length_firstn. lia.
Qed.

End Model.

End StoreSpec.

Module VectorStoreSpec.
Import Database DatabaseSpec StoreSpec.

(** ** Document identifiers *)

(** C1 (the code departs from it): [_generate_document_id] returns [None]
    for every text and every metadata mapping, whatever [hash] and [str]
    compute: the identifier carries nothing of the content, and two
    different texts get the same one. On the reference collection, which
    like ChromaDB accepts only strings as identifiers, [add_document] then
    raises the storage error for every document, with duplicates allowed or
    not, and leaves the store as it was. *)
Theorem generate_document_id_returns_none :
  (forall py_hash str_dict text metadata,
      _generate_document_id py_hash str_dict text metadata = None)
  /\ (forall py_hash str_dict,
         _generate_document_id py_hash str_dict "The sky is blue." (Some ∅)
         = _generate_document_id py_hash str_dict "Grass is green."
                                 (Some {[ "source" := PyStr "test" ]}))
  /\ (forall py_hash str_dict (s : ChromaModel.state (list Q))
             text embedding metadata allow_duplicates,
         add_document (ChromaModel.collection ChromaModel.sq_euclid) ChromaModel.clock
                      py_hash str_dict text embedding metadata allow_duplicates s
         = (Raise (Exn RuntimeError
                       "Document storage failed: Expected ID to be a str, got None"), s)).
Proof.
  split; [reflexivity|]. split; [reflexivity|].
  intros. apply add_document_model.
Qed.

(** ** Updates *)




(** ** Witnesses of the two theorems on arbitrary collections *)

Lemma search_clamps_result_count_witness :
  bounded_query (ChromaModel.collection ChromaModel.sq_euclid)
  /\ forall r s',
       ChromaModel.search [1%Q; 0%Q] 100 Fixtures.sky_store = (Ok r, s') ->
       (List.length (documents r) <= 50)%nat.
Proof.
  split; [apply query_bounded|].
  intros r s' Hrun.
  destruct (search_clamps_result_count
              (ChromaModel.collection ChromaModel.sq_euclid)
              [1%Q; 0%Q] 100 Fixtures.sky_store (query_bounded _))
    as (_ & _ & _ & _ & _ & Hlen).
  apply (Hlen r s' Hrun).
Defined.

Lemma update_delete_get_never_raise_witness :
  update_document Fixtures.broken_collection (fun _ => 0%Q)
                  "doc-1" (Some "new text") None None tt = (Ok false, tt)
  /\ delete_document Fixtures.broken_collection "doc-1" tt = (Ok false, tt).
Proof.
  destruct (update_delete_get_never_raise
              Fixtures.broken_collection (fun _ => 0%Q)
              "doc-1" (Some "new text") None None tt)
    as (_ & _ & _ & Hcheck & _).
  apply (Hcheck Fixtures.connection_lost tt). reflexivity.
Defined.

End VectorStoreSpec.

(* ===================================================================== *)
(** * The orchestrator *)
(* ===================================================================== *)

Module RagSpec.
Import Rag.
Import DatabaseSpec.

(** ** Rounding and the similarity score *)

Lemma round_half_even_floor x :
  Qfloor x <= round_half_even x <= Qfloor x + 1.
Proof.
  unfold round_half_even.
  destruct (Qcompare _ _); [destruct (Z.even _)| |]; lia.
Qed.

Lemma round_half_even_range x (n : Z) :
  (0 <= x)%Q -> (x <= inject_Z n)%Q -> 0 <= round_half_even x <= n.
Proof.
  intros H0 Hn.
  pose proof (round_half_even_floor x) as [Hlo Hhi].
  assert (Hf0 : 0 <= Qfloor x).
  { change 0 with (Qfloor (inject_Z 0)). now apply Qfloor_resp_le. }
  assert (Hfn : Qfloor x <= n).
  { rewrite <- (Qfloor_Z n). now apply Qfloor_resp_le. }
  split; [lia|].
  destruct (Z.eq_dec (Qfloor x) n) as [Heq|Hne]; [|lia].
  assert (Hx : (x == inject_Z n)%Q).
  { apply Qle_antisym; [exact Hn|]. rewrite <- Heq. apply Qfloor_le. }
  unfold round_half_even. rewrite Heq.
  replace (Qcompare (x - inject_Z n) (1 # 2)) with Lt; [lia|].
  symmetry. apply Qlt_alt. rewrite Hx.
  assert (H : (inject_Z n - inject_Z n == 0)%Q) by ring.
  rewrite H. reflexivity.
Qed.

Lemma py_round_3_range x :
  (0 <= x)%Q -> (x <= 1)%Q -> (0 <= py_round x 3)%Q /\ (py_round x 3 <= 1)%Q.
Proof.
  intros H0 H1. unfold py_round. rewrite Qred_correct.
  change (inject_Z (10 ^ Z.of_nat 3)) with (inject_Z 1000).
  destruct (round_half_even_range (x * inject_Z 1000) 1000) as [Hlo Hhi].
  - apply Qmult_le_0_compat; [exact H0 | discriminate].
  - apply Qle_trans with (1 * inject_Z 1000)%Q; [|discriminate].
    apply Qmult_le_compat_r; [exact H1 | discriminate].
  - split.
    + apply Qle_shift_div_l; [reflexivity|].
      rewrite Qmult_0_l. change 0%Q with (inject_Z 0). now rewrite <- Zle_Qle.
    + apply Qle_shift_div_r; [reflexivity|].
      rewrite Qmult_1_l. now rewrite <- Zle_Qle.
Qed.

Lemma py_round_3_nonneg x : (0 <= x)%Q -> (0 <= py_round x 3)%Q.
Proof.
  intros H0. unfold py_round. rewrite Qred_correct.
  change (inject_Z (10 ^ Z.of_nat 3)) with (inject_Z 1000).
  apply Qle_shift_div_l; [reflexivity|]. rewrite Qmult_0_l.
  change 0%Q with (inject_Z 0). rewrite <- Zle_Qle.
  pose proof (round_half_even_floor (x * inject_Z 1000)) as [Hlo _].
  assert (0 <= Qfloor (x * inject_Z 1000)); [|lia].
  change 0 with (Qfloor (inject_Z 0)). apply Qfloor_resp_le.
  apply Qmult_le_0_compat; [exact H0 | discriminate].
Qed.

Lemma similarity_score_nonneg d : (0 <= similarity_score d)%Q.
Proof.
  unfold similarity_score, py_max.
  destruct (Qlt_le_dec 0 (1 - d / 2)); [now apply Qlt_le_weak | apply Qle_refl].
Qed.

Lemma similarity_score_le_1 d : (0 <= d)%Q -> (similarity_score d <= 1)%Q.
Proof.
  intros Hd. unfold similarity_score, py_max.
  destruct (Qlt_le_dec 0 (1 - d / 2)); [|discriminate].
  assert (0 <= d / 2)%Q by (apply Qle_shift_div_l; [reflexivity | now rewrite Qmult_0_l]).
  apply Qle_trans with (1 - 0)%Q; [|discriminate].
  apply Qplus_le_compat; [apply Qle_refl|]. now apply Qopp_le_compat.
Qed.

Lemma zip3_distances {A B} (a : list A) (b : list B) (c : list Q) (P : Q -> Prop) :
  List.Forall P c -> List.Forall (fun '(_, _, d) => P d) (zip3 a b c).
Proof.
  revert b c; induction a as [|x a IH]; intros [|y b] [|z c] H; simpl;
    try constructor.
  - now inversion H.
  - apply IH. now inversion H.
Qed.

(** Rounding moves a value by half a unit at most. *)
Lemma round_half_even_near x :
  (inject_Z (round_half_even x) - x <= 1 # 2)%Q
  /\ (x - inject_Z (round_half_even x) <= 1 # 2)%Q.
Proof.
  pose proof (Qfloor_le x) as Hlo. pose proof (Qlt_floor x) as Hhi.
  rewrite inject_Z_plus in Hhi. change (inject_Z 1) with 1%Q in Hhi.
  unfold round_half_even.
  destruct (Qcompare (x - inject_Z (Qfloor x)) (1 # 2)) eqn:Hc.
  - apply Qeq_alt in Hc.
    destruct (Z.even (Qfloor x)).
    + split; Lqa.lra.
    + rewrite inject_Z_plus. change (inject_Z 1) with 1%Q. split; Lqa.lra.
  - apply Qlt_alt in Hc. split; Lqa.lra.
  - apply Qgt_alt in Hc. rewrite inject_Z_plus. change (inject_Z 1) with 1%Q.
    split; Lqa.lra.
Qed.

Lemma py_round_3_near x :
  (py_round x 3 - x <= 1 # 2000)%Q /\ (x - py_round x 3 <= 1 # 2000)%Q.
Proof.
  unfold py_round. rewrite Qred_correct.
  change (inject_Z (10 ^ Z.of_nat 3)) with 1000%Q.
  destruct (round_half_even_near (x * 1000)) as [H1 H2].
  set (r := inject_Z (round_half_even (x * 1000))) in *.
  assert (Hr : (r / 1000 == r * (1 # 1000))%Q) by reflexivity.
  rewrite Hr. split; Lqa.lra.
Qed.

(** Each source carries the document and the metadata of its position,
    and a score within a thousandth of the similarity of the distance at
    that position. *)
Lemma format_sources_near documents metadatas distances :
  List.Forall2 (fun s '(c, m, d) =>
                  content s = c /\ metadata s = m
                  /\ (score s - similarity_score d <= 1 # 1000)%Q
                  /\ (similarity_score d - score s <= 1 # 1000)%Q)
               (_format_sources documents metadatas distances)
               (zip3 documents metadatas distances).
Proof.
  unfold _format_sources.
  induction (zip3 documents metadatas distances) as [|[[c m] d] l IH];
    cbn [List.map]; constructor; [|exact IH].
  cbn [content metadata score].
  split; [reflexivity|]. split; [reflexivity|].
  destruct (py_round_3_near (similarity_score d)) as [H1 H2].
  split; Lqa.lra.
Qed.

(** C6: the similarity of a distance [d] is [max(0, 1 - d/2)], which is 1
    at [d = 0] and 0 at [d = 2] and at [d = 4], and is never negative. The
    score reported for a source is that similarity rounded to three
    decimals: it is within a thousandth of the similarity and, the
    distances being non-negative, it lies in [0, 1]. *)
Theorem format_sources_score_range
        (documents : list string) (metadatas : list dict) (distances : list Q) :
  List.Forall (fun d => (0 <= d)%Q) distances ->
  List.Forall (fun s => (0 <= score s)%Q /\ (score s <= 1)%Q)
              (_format_sources documents metadatas distances)
  /\ List.Forall2 (fun s '(c, m, d) =>
                     content s = c /\ metadata s = m
                     /\ (score s - similarity_score d <= 1 # 1000)%Q
                     /\ (similarity_score d - score s <= 1 # 1000)%Q)
                  (_format_sources documents metadatas distances)
                  (zip3 documents metadatas distances)
  /\ (forall d, similarity_score d = py_max 0 (1 - d / 2)
                /\ (0 <= similarity_score d)%Q
                /\ (0 <= py_round (similarity_score d) 3)%Q)
  /\ (similarity_score 0 == 1)%Q
  /\ (similarity_score 2 == 0)%Q
  /\ (similarity_score 4 == 0)%Q.
Proof.
  intros Hd. split; [|split; [apply format_sources_near|]].
  - unfold _format_sources. apply List.Forall_map.
    eapply List.Forall_impl; [|apply (zip3_distances _ _ _ _ Hd)].
    intros [[c m] d] H0. cbn [score].
    apply py_round_3_range;
      [apply similarity_score_nonneg | now apply similarity_score_le_1].
  - split.
    + intros d. split; [reflexivity|].
      split; [apply similarity_score_nonneg|].
      apply py_round_3_nonneg, similarity_score_nonneg.
    + repeat split.
Qed.

Lemma format_sources_score_range_witness :
  List.Forall (fun d => (0 <= d)%Q) [0%Q; 2%Q; 4%Q; (1 # 2)%Q]
  /\ List.Forall (fun s => (0 <= score s)%Q /\ (score s <= 1)%Q)
       (_format_sources ["a"; "b"; "c"; "d"] [∅; ∅; ∅; ∅] [0%Q; 2%Q; 4%Q; (1 # 2)%Q]).
Proof.
  assert (H : List.Forall (fun d => (0 <= d)%Q) [0%Q; 2%Q; 4%Q; (1 # 2)%Q])
    by (repeat constructor; discriminate).
  split; [exact H|].
  apply (format_sources_score_range ["a"; "b"; "c"; "d"] [∅; ∅; ∅; ∅] _ H).
Defined.

End RagSpec.

Module OrchestratorSpec.
Import Rag.
Import DatabaseSpec.

Lemma strip_truthy question :
  PyStr.truthy (PyStr.strip question) = true -> PyStr.truthy question = true.
Proof. destruct question; [discriminate | reflexivity]. Qed.

Section Pipeline.
Context {E vector : Type}.
Variable generate_embeddings : list string -> M E (list vector).
Variable db_search : vector -> Z -> M E Database.SearchResults.
Variable requests_post : Request -> M E Response.
Variable time_time : E -> Q.

Abbreviation run :=
  (generate_answer generate_embeddings db_search requests_post time_time).

(** The handler of [generate_answer] turns every exception of the body
    into an answer. *)
Lemma generate_answer_total self question max_results (w : world E) :
  exists a w', run self question max_results w = (Ok a, w').
Proof.
  unfold generate_answer, now.
  unfold mbind at 1. unfold M_bind at 1. unfold bind at 1. cbv beta iota.
  unfold try_except at 1.
  match goal with
  | |- context [match ?body w with _ => _ end] =>
      destruct (body w) as [[a|x] w']
  end; unfold mret, M_ret, ret; eauto.
Qed.

(** C8: a question that is empty once stripped is answered at once with
    the error answer: its text begins with ["Error:"], it has no sources,
    zero tokens, zero processing time and zero context documents; the
    world is left as it was, so that no call to the embedding generator,
    to the vector store or to the generation API has been made. *)
Theorem blank_question_short_circuits
        (self : RAGPipeline) (question : string) (max_results : Z) (w : world E) :
  PyStr.strip question = "" ->
  exists a w',
    run self question max_results w = (Ok a, w')
    /\ a = _create_error_response self "Question cannot be empty"
    /\ starts_with_error (answer a) = true
    /\ sources a = []
    /\ tokens_used a = PyInt 0
    /\ processing_time a = 0%Q
    /\ context_documents_found a = 0%nat
    /\ calls w' = calls w
    /\ w' = w.
Proof.
  intros Hblank.
  exists (_create_error_response self "Question cannot be empty"), w.
  split; [|repeat split].
  unfold generate_answer, now. run_monad.
  rewrite Hblank. cbn [PyStr.truthy negb]. rewrite orb_true_r. reflexivity.
Qed.

(** ** Failures of the collaborators *)



End Pipeline.

Import RagFixtures.

Lemma blank_question_short_circuits_witness :
  PyStr.strip "   " = ""
  /\ exists a w',
       generate_answer embed_ok search_one post_times_out clock_zero
                       live_pipeline "   " 3 fresh = (Ok a, w')
       /\ a = _create_error_response live_pipeline "Question cannot be empty"
       /\ calls w' = [].
Proof.
  split; [reflexivity|].
  destruct (blank_question_short_circuits embed_ok search_one post_times_out
              clock_zero live_pipeline "   " 3 fresh eq_refl)
    as (a & w' & Hrun & Ha & _ & _ & _ & _ & _ & Hcalls & _).
  exists a, w'. repeat split; assumption.
Defined.


End OrchestratorSpec.

(* ===================================================================== *)
(** * Further properties of the embedding generator *)
(* ===================================================================== *)

Module EmbeddingsMore.
Import Embeddings FallbackSpec EmbeddingsFacts.
Local Open Scope R_scope.

Lemma half_sin_range x : 0 <= (sin x + 1) / 2 <= 1.
Proof. pose proof (SIN_bound x). lra. Qed.

Lemma component_range t i : 0 <= component t i <= 1.
Proof.
  unfold component, hashed_value, filler_value.
  destruct (i <? _)%nat; apply half_sin_range.
Qed.

Lemma squares_nonneg v :
  0 <= List.fold_right Rplus 0 (List.map (fun x => x * x) v).
Proof.
  induction v as [|x v IH]; simpl; [lra|].
  pose proof (Rle_0_sqr x) as Hx. unfold Rsqr in Hx. lra.
Qed.

Lemma square_le_squares v x :
  List.In x v -> x * x <= List.fold_right Rplus 0 (List.map (fun x => x * x) v).
Proof.
  induction v as [|y v IH]; simpl; [tauto|].
  pose proof (squares_nonneg v). pose proof (Rle_0_sqr y) as Hy. unfold Rsqr in Hy.
  intros [->|Hin]; [lra|]. specialize (IH Hin). lra.
Qed.

Lemma entry_le_norm v x : List.In x v -> 0 <= x -> x <= l2_norm v.
Proof.
  intros Hin Hx. unfold l2_norm.
  rewrite <- (sqrt_square x Hx) at 1.
  apply sqrt_le_1_alt. now apply square_le_squares.
Qed.

Lemma l2_normalize_range v :
  List.Forall (fun x => 0 <= x <= 1) v ->
  List.Forall (fun x => 0 <= x <= 1) (l2_normalize v).
Proof.
  intros Hv. unfold l2_normalize.
  destruct (Req_dec_T (l2_norm v) 0) as [Hz|Hnz]; [exact Hv|].
  assert (Hpos : 0 < l2_norm v).
  { pose proof (sqrt_pos (List.fold_right Rplus 0 (List.map (fun x => x * x) v))) as H.
    fold (l2_norm v) in H. lra. }
  rewrite List.Forall_forall in *. intros y Hy.
  apply List.in_map_iff in Hy as (x & <- & Hin).
  destruct (Hv x Hin) as [H0 _].
  pose proof (entry_le_norm v x Hin H0) as Hle.
  split.
  - apply Rmult_le_pos; [exact H0|]. left. now apply Rinv_0_lt_compat.
  - apply (Rmult_le_reg_r (l2_norm v)); [exact Hpos|].
    unfold Rdiv. rewrite Rmult_assoc, Rinv_l by lra. lra.
Qed.

Lemma fallback_embed_range D text :
  List.Forall (fun x => 0 <= x <= 1) (fallback_embed D text).
Proof.
  unfold fallback_embed. destruct (normalize text) eqn:Et.
  - apply List.Forall_forall. intros x Hx. apply List.repeat_spec in Hx. lra.
  - apply l2_normalize_range. apply List.Forall_forall. intros x Hx.
    apply List.in_map_iff in Hx as (i & <- & _). apply component_range.
Qed.

Lemma squares_scaled v m :
  m <> 0 ->
  List.fold_right Rplus 0
    (List.map (fun x => x * x) (List.map (fun x => x / m) v))
  = List.fold_right Rplus 0 (List.map (fun x => x * x) v) / (m * m).
Proof.
  intros Hm. induction v as [|x v IH]; simpl; [field; exact Hm|].
  rewrite IH. field. exact Hm.
Qed.

Lemma squares_zero v :
  List.fold_right Rplus 0 (List.map (fun x => x * x) v) = 0 ->
  List.Forall (fun x => x = 0) v.
Proof.
  induction v as [|x v IH]; simpl; intros H; [constructor|].
  pose proof (squares_nonneg v). pose proof (Rle_0_sqr x) as Hx. unfold Rsqr in Hx.
  constructor.
  - apply Rsqr_0_uniq. unfold Rsqr. lra.
  - apply IH. lra.
Qed.

Lemma l2_normalize_unit v :
  l2_norm (l2_normalize v) = 1 \/ List.Forall (fun x => x = 0) (l2_normalize v).
Proof.
  unfold l2_normalize.
  destruct (Req_dec_T (l2_norm v) 0) as [Hz|Hnz].
  - right. apply squares_zero. unfold l2_norm in Hz.
    apply sqrt_eq_0; [apply squares_nonneg | exact Hz].
  - left. unfold l2_norm at 1. rewrite squares_scaled by exact Hnz.
    unfold l2_norm. rewrite sqrt_sqrt by apply squares_nonneg.
    set (S := List.fold_right Rplus 0 (List.map (fun x => x * x) v)) in *.
    assert (HS : S <> 0).
    { intros HS0. apply Hnz. unfold l2_norm. fold S. rewrite HS0. apply sqrt_0. }
    replace (S / S) with 1 by (field; exact HS). apply sqrt_1.
Qed.

Lemma fallback_embed_unit D text :
  l2_norm (fallback_embed D text) = 1
  \/ List.Forall (fun x => x = 0) (fallback_embed D text).
Proof.
  unfold fallback_embed. destruct (normalize text).
  - right. apply List.Forall_forall. intros x Hx. now apply List.repeat_spec in Hx.
  - apply l2_normalize_unit.
Qed.

(** ** The check of the input *)

Lemma as_str_strings strings : mapM as_str (List.map PyStr strings) = Some strings.
Proof.
  induction strings as [|t ts IH]; [reflexivity|].
  cbn [List.map mapM as_str]. rewrite IH. reflexivity.
Qed.

Lemma as_str_all texts strings :
  mapM as_str texts = Some strings -> texts = List.map PyStr strings.
Proof.
  revert strings; induction texts as [|o os IH]; intros strings.
  - intros H. inversion H. reflexivity.
  - cbn [mapM]. destruct o; try discriminate. cbn [as_str].
    destruct (mapM as_str os) as [ss|]; [|discriminate].
    intros H. inversion H. cbn [List.map]. now rewrite (IH ss eq_refl).
Qed.

Lemma as_str_some texts :
  mapM as_str texts = None <-> exists o, List.In o texts /\ as_str o = None.
Proof.
  induction texts as [|o os IH].
  - split; [discriminate | intros (o & [] & _)].
  - cbn [mapM]. destruct (as_str o) as [t|] eqn:Ho.
    + destruct (mapM as_str os) as [ss|].
      * split; [discriminate|]. intros (o' & [<-|Hin] & Hnone); [congruence|].
        destruct IH as [_ IH]. discriminate IH. eauto.
      * split; [|reflexivity]. intros _.
        destruct IH as [IH _]. destruct (IH eq_refl) as (o' & Hin & Hnone).
        exists o'. split; [now right | exact Hnone].
    + split; [|reflexivity]. intros _. exists o. split; [now left | exact Ho].
Qed.

Lemma untyped_strings self strings :
  generate_embeddings_untyped self (List.map PyStr strings)
  = generate_embeddings self strings.
Proof.
  unfold generate_embeddings_untyped. rewrite as_str_strings.
  destruct strings; reflexivity.
Qed.

Lemma untyped_not_string self texts :
  (exists o, List.In o texts /\ as_str o = None) ->
  generate_embeddings_untyped self texts
  = Raise (Exn ValueError "All inputs must be strings").
Proof.
  intros Hbad. unfold generate_embeddings_untyped.
  destruct texts as [|o os]; [destruct Hbad as (o & [] & _)|].
  apply as_str_some in Hbad. now rewrite Hbad.
Qed.

(** In fallback mode, on a list whose elements are all strings (of code
    points 0 to 255, as strings are here), [generate_embeddings] returns:
    one vector per input text, each with exactly [embedding_dim] entries,
    the zero vector standing at the position of every whitespace-only
    text. On a list with an element that is not a string it raises the
    [ValueError] ["All inputs must be strings"]. *)
Theorem fallback_mode_total_shape (self : EmbeddingGenerator) (texts : list pyobj) :
  use_fallback self = true ->
  (forall strings,
      texts = List.map PyStr strings ->
      exists vs,
        generate_embeddings_untyped self texts = Ok vs
        /\ List.length vs = List.length texts
        /\ List.Forall (fun v => List.length v = embedding_dim self) vs
        /\ (forall i text,
               List.nth_error strings i = Some text ->
               PyStr.truthy (PyStr.strip text) = false ->
               List.nth_error vs i = Some (zeros (embedding_dim self))))
  /\ ((exists o, List.In o texts /\ as_str o = None) ->
      generate_embeddings_untyped self texts
      = Raise (Exn ValueError "All inputs must be strings")).
Proof.
  intros Hfb. split; [|apply untyped_not_string].
  intros strings ->. rewrite untyped_strings. eexists.
  split; [now apply EmbeddingsSpec.generate_embeddings_fallback|].
  split; [now rewrite !List.length_map|].
  split.
  - apply List.Forall_forall. intros v Hv.
    apply List.in_map_iff in Hv as (t & <- & _). apply fallback_embed_length.
  - intros i text Hi Hblank.
    rewrite List.nth_error_map, Hi. simpl. f_equal.
    now apply fallback_embed_blank.
Qed.

Lemma fallback_mode_total_shape_witness :
  (exists vs,
     generate_embeddings_untyped Fixtures.fallback_generator
       [PyStr "hello"; PyStr "  "; PyStr ""] = Ok vs
     /\ List.length vs = 3%nat
     /\ List.Forall (fun v => List.length v = 384%nat) vs)
  /\ generate_embeddings_untyped Fixtures.fallback_generator [PyStr "hello"; PyInt 7]
     = Raise (Exn ValueError "All inputs must be strings").
Proof.
  split.
  - destruct (fallback_mode_total_shape Fixtures.fallback_generator
                [PyStr "hello"; PyStr "  "; PyStr ""] eq_refl) as [Hok _].
    destruct (Hok ["hello"; "  "; ""] eq_refl) as (vs & Hrun & Hlen & Hdim & _).
    exists vs. repeat split; assumption.
  - destruct (fallback_mode_total_shape Fixtures.fallback_generator
                [PyStr "hello"; PyInt 7] eq_refl) as [_ Hbad].
    apply Hbad. exists (PyInt 7). split; [right; left; reflexivity | reflexivity].
Defined.

(** In fallback mode every entry of every vector that
    [generate_embeddings] returns lies between 0 and 1. *)
Theorem fallback_entries_in_unit_interval
        (self : EmbeddingGenerator) (texts : list string) :
  use_fallback self = true ->
  exists vs,
    generate_embeddings self texts = Ok vs
    /\ List.Forall (List.Forall (fun x => 0 <= x <= 1)) vs.
Proof.
  intros Hfb. eexists.
  split; [now apply EmbeddingsSpec.generate_embeddings_fallback|].
  apply List.Forall_forall. intros v Hv.
  apply List.in_map_iff in Hv as (t & <- & _). apply fallback_embed_range.
Qed.

Lemma fallback_entries_in_unit_interval_witness :
  exists vs,
    generate_embeddings Fixtures.fallback_generator ["What is RAG?"; " "] = Ok vs
    /\ List.Forall (List.Forall (fun x => 0 <= x <= 1)) vs.
Proof.
  apply (fallback_entries_in_unit_interval Fixtures.fallback_generator
           ["What is RAG?"; " "]).
  reflexivity.
Defined.

(** In fallback mode every vector that [generate_embeddings] returns has
    Euclidean norm 1, unless all its entries are zero (as for a
    whitespace-only text). *)
Theorem fallback_vectors_unit_or_zero
        (self : EmbeddingGenerator) (texts : list string) :
  use_fallback self = true ->
  exists vs,
    generate_embeddings self texts = Ok vs
    /\ List.Forall (fun v =>
                      sqrt (List.fold_right Rplus 0 (List.map (fun x => x * x) v)) = 1
                      \/ List.Forall (fun x => x = 0) v) vs.
Proof.
  intros Hfb. eexists.
  split; [now apply EmbeddingsSpec.generate_embeddings_fallback|].
  apply List.Forall_forall. intros v Hv.
  apply List.in_map_iff in Hv as (t & <- & _). apply fallback_embed_unit.
Qed.

Lemma fallback_vectors_unit_or_zero_witness :
  exists vs,
    generate_embeddings Fixtures.fallback_generator ["What is RAG?"; " "] = Ok vs
    /\ List.Forall (fun v =>
                      sqrt (List.fold_right Rplus 0 (List.map (fun x => x * x) v)) = 1
                      \/ List.Forall (fun x => x = 0) v) vs.
Proof.
  apply (fallback_vectors_unit_or_zero Fixtures.fallback_generator
           ["What is RAG?"; " "]).
  reflexivity.
Defined.

(** ** Blank batches and failures *)

Lemma filter_all_blank texts :
  List.Forall (fun text => PyStr.truthy (PyStr.strip text) = false) texts ->
  List.filter (fun text => PyStr.truthy (PyStr.strip text)) texts = [].
Proof.
  induction 1 as [|t ts Ht _ IH]; simpl; [reflexivity|]. now rewrite Ht.
Qed.

(** A batch made of whitespace-only texts gets one zero vector of
    [embedding_dim] entries per text, in model mode as in fallback mode and
    whatever the model is: the model is not asked. *)
Theorem blank_batch_gives_zero_vectors (self : EmbeddingGenerator) (texts : list string) :
  List.Forall (fun text => PyStr.truthy (PyStr.strip text) = false) texts ->
  generate_embeddings self texts
  = Ok (List.map (fun _ => zeros (embedding_dim self)) texts).
Proof.
  intros Hblank. unfold generate_embeddings.
  destruct texts as [|t ts]; [reflexivity|].
  now rewrite (filter_all_blank _ Hblank).
Qed.

(** A model that always fails. *)
Lemma blank_batch_gives_zero_vectors_witness :
  generate_embeddings MoreFixtures.broken_generator [" "; ""]
  = Ok [zeros 3; zeros 3].
Proof.
  apply (blank_batch_gives_zero_vectors MoreFixtures.broken_generator [" "; ""]).
  repeat constructor.
Defined.

(** What [generate_embeddings] raises on a list of strings. *)
Lemma strings_raise (self : EmbeddingGenerator) (texts : list string) (e : exn) :
  generate_embeddings self texts = Raise e ->
  exn_cls e = RuntimeError
  /\ PyStr.startswith "Failed to generate embeddings: " (exn_str e) = true
  /\ use_fallback self = false
  /\ (model self = None ->
      exn_str e = "Failed to generate embeddings: Model not loaded")
  /\ (forall encode, model self = Some encode ->
        exists e0 ts,
          encode ts = Raise e0
          /\ exn_str e = ("Failed to generate embeddings: " ++ exn_str e0)%string).
Proof.
  unfold generate_embeddings.
  destruct texts as [|t ts]; [discriminate|].
  destruct (List.map PyStr.strip _) as [|p ps] eqn:Eproc; [discriminate|].
  destruct (use_fallback self) eqn:Hfb.
  - rewrite generate_fallback_spec. discriminate.
  - unfold _generate_model_embeddings.
    destruct (model self) as [encode|] eqn:Hmodel; cbn [try_result].
    + destruct (encode (p :: ps)) as [vs|e0] eqn:Henc; [discriminate|].
      intros H. inversion H; subst; clear H. cbn [exn_cls exn_str].
      split; [reflexivity|]. split; [reflexivity|]. split; [reflexivity|].
      split; [discriminate|].
      intros encode' Heq. inversion Heq; subst. eauto.
    + intros H. inversion H; subst; clear H. cbn [exn_cls exn_str].
      repeat split; try reflexivity. intros encode' Heq. discriminate.
Qed.

(** [generate_embeddings] raises two exceptions and no other. One is the
    [ValueError] ["All inputs must be strings"], raised when an element of
    the list is not a string. The other, on a list of strings (of code
    points 0 to 255, as strings are here), is a [RuntimeError] whose text
    begins with ["Failed to generate embeddings: "], and it comes in model
    mode only: a failure of the model keeps its text behind that prefix,
    and a generator in model mode without a model fails with
    ["Model not loaded"]. *)
Theorem generate_embeddings_exceptions
        (self : EmbeddingGenerator) (texts : list pyobj) (e : exn) :
  generate_embeddings_untyped self texts = Raise e ->
  (e = Exn ValueError "All inputs must be strings"
   /\ exists o, List.In o texts /\ as_str o = None)
  \/ ((exists strings, texts = List.map PyStr strings)
      /\ exn_cls e = RuntimeError
      /\ PyStr.startswith "Failed to generate embeddings: " (exn_str e) = true
      /\ use_fallback self = false
      /\ (model self = None ->
          exn_str e = "Failed to generate embeddings: Model not loaded")
      /\ (forall encode, model self = Some encode ->
            exists e0 ts,
              encode ts = Raise e0
              /\ exn_str e = ("Failed to generate embeddings: " ++ exn_str e0)%string)).
Proof.
  unfold generate_embeddings_untyped.
  destruct texts as [|o os]; [discriminate|].
  destruct (mapM as_str (o :: os)) as [strings|] eqn:Hstr.
  - intros Hrun. right. split.
    + exists strings. now apply as_str_all.
    + now apply (strings_raise self strings).
  - intros Hrun. inversion Hrun; subst. left. split; [reflexivity|].
    now apply as_str_some.
Qed.

Lemma generate_embeddings_exceptions_witness :
  generate_embeddings_untyped MoreFixtures.broken_generator [PyStr "hello"; PyNone]
  = Raise (Exn ValueError "All inputs must be strings")
  /\ exists o, List.In o [PyStr "hello"; PyNone] /\ as_str o = None.
Proof.
  split; [reflexivity|].
  destruct (generate_embeddings_exceptions MoreFixtures.broken_generator
              [PyStr "hello"; PyNone]
              (Exn ValueError "All inputs must be strings") eq_refl)
    as [[_ H]|(_ & Hcls & _)]; [exact H | discriminate Hcls].
Defined.

(** ** Loading the model *)

Import EmbeddingsInit.

(** After [_load_model], whatever the library does, the generator is in
    one of two states: fallback mode with no model and dimension 384, when
    the model could not be constructed or its test encoding failed or was
    empty; or model mode with the loaded model and the dimension of the
    test encoding. The model name is kept. So [use_fallback] holds exactly
    when there is no model. *)
Theorem load_model_modes
        (load : string -> result SentenceTransformer) (self : EmbeddingGenerator) :
  let self' := _load_model load self in
  model_name self' = model_name self
  /\ ((use_fallback self' = true /\ model self' = None
       /\ embedding_dim self' = 384%nat)
      \/ (exists m first rest,
            load (model_name self) = Ok m
            /\ encode_plain m ["test"] = Ok (first :: rest)
            /\ use_fallback self' = false
            /\ model self' = Some (encode_normalized m)
            /\ embedding_dim self' = List.length first))
  /\ (use_fallback self' = true <-> model self' = None).
Proof.
  unfold _load_model.
  assert (Hfallback : forall g : EmbeddingGenerator,
             model_name g = model_name self ->
             model_name (_fallback_to_simple_embeddings g) = model_name self
             /\ ((use_fallback (_fallback_to_simple_embeddings g) = true
                  /\ model (_fallback_to_simple_embeddings g) = None
                  /\ embedding_dim (_fallback_to_simple_embeddings g) = 384%nat)
                 \/ (exists m first rest,
                       load (model_name self) = Ok m
                       /\ encode_plain m ["test"] = Ok (first :: rest)
                       /\ use_fallback (_fallback_to_simple_embeddings g) = false
                       /\ model (_fallback_to_simple_embeddings g)
                          = Some (encode_normalized m)
                       /\ embedding_dim (_fallback_to_simple_embeddings g)
                          = List.length first))
             /\ (use_fallback (_fallback_to_simple_embeddings g) = true
                 <-> model (_fallback_to_simple_embeddings g) = None)).
  { intros g Hg. split; [exact Hg|]. split; [left; repeat split|].
    split; intros _; reflexivity. }
  destruct (load (model_name self)) as [m|e] eqn:Hload.
  - destruct (encode_plain m ["test"]) as [[|first rest]|e] eqn:Henc.
    + destruct (Hfallback _ eq_refl) as (H1 & H2 & H3).
      split; [exact H1|]. split; [exact H2 | exact H3].
    + cbn. split; [reflexivity|]. split.
      * right. exists m, first, rest. repeat split; try reflexivity; assumption.
      * split; discriminate.
    + destruct (Hfallback _ eq_refl) as (H1 & H2 & H3).
      split; [exact H1|]. split; [exact H2 | exact H3].
  - destruct (Hfallback self eq_refl) as (H1 & H2 & H3).
    split; [exact H1|]. split; [exact H2 | exact H3].
Qed.

(** A generator whose model could not be constructed is in fallback mode
    with dimension 384, and serves every list of strings (of code points 0
    to 255, as strings are here): [generate_embeddings] returns one vector
    of 384 entries per text. *)
Theorem failed_load_still_embeds
        (load : string -> result SentenceTransformer) (name : string)
        (strings : list string) (e : exn) :
  load name = Raise e ->
  let self := _load_model load (initial name) in
  get_embedding_dimension self = 384%nat
  /\ use_fallback self = true
  /\ exists vs,
       generate_embeddings_untyped self (List.map PyStr strings) = Ok vs
       /\ List.length vs = List.length strings
       /\ List.Forall (fun v => List.length v = 384%nat) vs.
Proof.
  intros Hload self.
  assert (Hself : self = _fallback_to_simple_embeddings (initial name)).
  { unfold self, _load_model. cbn [model_name initial]. now rewrite Hload. }
  rewrite Hself. split; [reflexivity|]. split; [reflexivity|].
  rewrite untyped_strings.
  eexists. split; [now apply EmbeddingsSpec.generate_embeddings_fallback|].
  split; [apply List.length_map|].
  apply List.Forall_forall. intros v Hv.
  apply List.in_map_iff in Hv as (t & <- & _). apply fallback_embed_length.
Qed.

Lemma failed_load_still_embeds_witness :
  exists vs,
    generate_embeddings_untyped
      (_load_model (fun _ => Raise (Exn OtherException "No module named torch"))
                   (initial "all-MiniLM-L6-v2")) [PyStr "hello"; PyStr " "] = Ok vs
    /\ List.length vs = 2%nat.
Proof.
  destruct (failed_load_still_embeds
              (fun _ => Raise (Exn OtherException "No module named torch"))
              "all-MiniLM-L6-v2" ["hello"; " "]
              (Exn OtherException "No module named torch") eq_refl)
    as (_ & _ & vs & Hrun & Hlen & _).
  exists vs. split; assumption.
Defined.

End EmbeddingsMore.

(* ===================================================================== *)
(** * Further properties of the vector store manager *)
(* ===================================================================== *)

Module DatabaseMore.
Import Database DatabaseExt DatabaseSpec.

Ltac run_monad_in H :=
  unfold mbind, mret, M_bind, M_ret, bind, ret, raise, try_except, lift in H.

Lemma startswith_app p s : PyStr.startswith p (p ++ s) = true.
Proof.
  induction p as [|c p IH]; simpl; [reflexivity|].
  now rewrite Ascii.eqb_refl.
Qed.

Section AnyCollection.
Context {E vector : Type}.
Variable collection : Collection E vector.
Variable coll_count : M E Z.
Variable coll_name : string.
Variable time_time : E -> Q.
Variable py_hash : string -> Z.
Variable str_dict : dict -> string.

Abbreviation add := (add_document collection time_time py_hash str_dict).
Abbreviation bulk := (bulk_add_documents collection time_time py_hash str_dict).
Abbreviation step := (bulk_step collection time_time py_hash str_dict).
Abbreviation loop := (bulk_loop collection time_time py_hash str_dict).

(** ** The exceptions of [add_document] and [search] *)

(** Whatever the collection does, [add_document] raises nothing but a
    [RuntimeError] whose text begins with ["Document storage failed: "],
    and [search] nothing but a [RuntimeError] whose text begins with
    ["Search failed: "]; a failure of the existence check is not raised
    at all. *)
Theorem add_and_search_raise_runtime_error
        (text : string) (embedding : vector) (metadata : option dict)
        (allow_duplicates : bool) (n_results : Z) (e : E) :
  (forall x e',
      add text embedding metadata allow_duplicates e = (Raise x, e') ->
      exn_cls x = RuntimeError
      /\ PyStr.startswith "Document storage failed: " (exn_str x) = true)
  /\ (forall x e',
         search collection embedding n_results e = (Raise x, e') ->
         exn_cls x = RuntimeError
         /\ PyStr.startswith "Search failed: " (exn_str x) = true).
Proof.
  split; intros x e'.
  - unfold add_document.
    assert (Hstore : forall e0,
               try_except
                 (t ← now time_time;
                  let metadata0 :=
                    <["text_length" := PyInt (Z.of_nat (PyStr.len text))]>
                      (<["timestamp" := PyFloat t]> (default ∅ metadata)) in
                  _ ← coll_add collection
                        [_generate_document_id py_hash str_dict text
                                               (Some (default ∅ metadata))]
                        [text] [embedding] [metadata0];
                  mret (_generate_document_id py_hash str_dict text
                                              (Some (default ∅ metadata))))
                 (fun e1 => raise (Exn RuntimeError
                                       ("Document storage failed: " ++ exn_str e1)))
                 e0 = (Raise x, e') ->
               exn_cls x = RuntimeError
               /\ PyStr.startswith "Document storage failed: " (exn_str x) = true).
    { intros e0. run_monad. unfold now.
      destruct (coll_add collection _ _ _ _ e0) as [[u|x0] e1]; [discriminate|].
      intros H. inversion H; subst; clear H. cbn [exn_cls exn_str].
      split; [reflexivity | apply startswith_app]. }
    destruct allow_duplicates; [apply Hstore|].
    destruct (document_exists_total collection
                (_generate_document_id py_hash str_dict text
                                       (Some (default ∅ metadata))) e)
      as (found & e1 & Hex).
    unfold mbind at 1, M_bind at 1, bind at 1. rewrite Hex.
    destruct found; [discriminate | apply Hstore].
  - unfold search. run_monad.
    destruct (coll_query collection _ _ _ e) as [[r|x0] e1]; [discriminate|].
    intros H. inversion H; subst; clear H. cbn [exn_cls exn_str].
    split; [reflexivity | apply startswith_app].
Qed.

(** ** Statistics *)

(** [get_collection_stats] never raises: it returns the count and the
    name of the collection, and when counting fails it returns the
    placeholder with count 0 and name ["unknown"]. *)
Theorem collection_stats_never_raise (e : E) :
  (exists stats e', get_collection_stats coll_count coll_name e = (Ok stats, e'))
  /\ (forall n e',
         coll_count e = (Ok n, e') ->
         get_collection_stats coll_count coll_name e
         = (Ok {| document_count := n; collection_name := coll_name |}, e'))
  /\ (forall x e',
         coll_count e = (Raise x, e') ->
         get_collection_stats coll_count coll_name e
         = (Ok {| document_count := 0; collection_name := "unknown" |}, e')).
Proof.
  unfold get_collection_stats. run_monad.
  destruct (coll_count e) as [[n|x] e1]; repeat split; eauto;
    intros ? ? H; inversion H; reflexivity.
Qed.

(** ** Bulk insertion *)

Lemma step_ok dup acc doc (e e' : E) acc' :
  step dup acc doc e = (Ok acc', e') ->
  aligned acc ->
  aligned acc'
  /\ ((added_ids acc' = added_ids acc
       /\ skipped_count acc' = S (skipped_count acc) /\ dup = false)
      \/ (exists id, added_ids acc' = added_ids acc ++ [id]
                     /\ skipped_count acc' = skipped_count acc)).
Proof.
  intros Hrun (Ha & Ht & He & Hm). unfold bulk_step in Hrun.
  destruct (bulk_text doc) as [text|]; [|discriminate].
  destruct (bulk_embedding doc) as [embedding|]; [|discriminate].
  cbn [require] in Hrun.
  unfold mbind at 1 2, M_bind at 1 2, bind at 1 2, lift in Hrun.
  set (metadata := match bulk_metadata doc with
                   | MetaAbsent => Some ∅
                   | MetaNone => None
                   | MetaDict d => Some d
                   end) in *.
  assert (Happend : forall e0,
             match metadata with
             | None => raise (Exn AttributeError
                                  "'NoneType' object has no attribute 'update'")
             | Some md =>
                 t ← now time_time;
                 mret {| ids_to_add := ids_to_add acc
                           ++ [_generate_document_id py_hash str_dict text metadata];
                         texts_to_add := texts_to_add acc ++ [text];
                         embeddings_to_add := embeddings_to_add acc ++ [embedding];
                         metadatas_to_add := metadatas_to_add acc
                           ++ [<["text_length" := PyInt (Z.of_nat (PyStr.len text))]>
                                 (<["timestamp" := PyFloat t]> md)];
                         added_ids := added_ids acc
                           ++ [_generate_document_id py_hash str_dict text metadata];
                         skipped_count := skipped_count acc |}
             end e0 = (Ok acc', e') ->
             aligned acc'
             /\ exists id, added_ids acc' = added_ids acc ++ [id]
                           /\ skipped_count acc' = skipped_count acc).
  { intros e0. destruct metadata as [md|]; [|discriminate].
    run_monad. unfold now. intros H. inversion H; subst; clear H.
    cbn [added_ids ids_to_add texts_to_add embeddings_to_add metadatas_to_add
         skipped_count].
    split; [|eauto].
    unfold aligned.
    cbn [added_ids ids_to_add texts_to_add embeddings_to_add metadatas_to_add].
    rewrite !List.length_app, Ha, Ht, He, Hm. repeat split; reflexivity. }
  destruct dup.
  - destruct (Happend e Hrun) as [Hal Hadd]. split; [exact Hal | right; exact Hadd].
  - destruct (document_exists_total collection
                (_generate_document_id py_hash str_dict text metadata) e)
      as (found & e1 & Hex).
    unfold mbind at 1, M_bind at 1, bind at 1 in Hrun. rewrite Hex in Hrun.
    destruct found.
    + run_monad_in Hrun. inversion Hrun; subst; clear Hrun.
      cbn [added_ids ids_to_add texts_to_add embeddings_to_add metadatas_to_add
           skipped_count].
      split; [|left; repeat split].
      unfold aligned.
      cbn [added_ids ids_to_add texts_to_add embeddings_to_add metadatas_to_add].
      repeat split; assumption.
    + destruct (Happend e1 Hrun) as [Hal Hadd].
      split; [exact Hal | right; exact Hadd].
Qed.

Lemma loop_ok dup documents : forall acc (e e' : E) acc',
  loop dup documents acc e = (Ok acc', e') ->
  aligned acc ->
  aligned acc'
  /\ (List.length (added_ids acc') + skipped_count acc'
      = List.length (added_ids acc) + skipped_count acc + List.length documents)%nat
  /\ (dup = true -> skipped_count acc' = skipped_count acc).
Proof.
  induction documents as [|doc rest IH]; intros acc e e' acc' Hrun Hal.
  - cbn in Hrun. inversion Hrun; subst. repeat split; try apply Hal. simpl. lia.
  - cbn [bulk_loop] in Hrun.
    unfold mbind at 1, M_bind at 1, bind at 1 in Hrun.
    destruct (step dup acc doc e) as [[acc1|x] e1] eqn:Hstep; [|discriminate].
    destruct (step_ok _ _ _ _ _ _ Hstep Hal) as (Hal1 & Hcase).
    destruct (IH _ _ _ _ Hrun Hal1) as (Hal' & Hcount & Hdup).
    split; [exact Hal'|]. cbn [List.length].
    destruct Hcase as [(Hadd & Hskip & Hd)|(id & Hadd & Hskip)].
    + rewrite Hadd, Hskip in Hcount. split; [lia|].
      intros Htrue. congruence.
    + rewrite Hadd, List.length_app, Hskip in Hcount. cbn [List.length] in Hcount.
      split; [lia|]. intros Htrue. rewrite (Hdup Htrue). exact Hskip.
Qed.

(** When [bulk_add_documents] returns, it returns at most one id per
    document, and exactly one per document when duplicates are allowed;
    an empty list of documents gives the empty list and leaves the
    collection untouched. Whatever it raises (a document without its
    ["text"] or ["embedding"] key, a failure of the collection) is a
    [RuntimeError] whose text begins with ["Bulk add failed: "]. *)
Theorem bulk_add_counts_and_errors
        (documents : list (BulkDocument vector)) (allow_duplicates : bool) (e : E) :
  (forall ids e',
      bulk documents allow_duplicates e = (Ok ids, e') ->
      (List.length ids <= List.length documents)%nat
      /\ (allow_duplicates = true -> List.length ids = List.length documents))
  /\ (forall x e',
         bulk documents allow_duplicates e = (Raise x, e') ->
         exn_cls x = RuntimeError
         /\ PyStr.startswith "Bulk add failed: " (exn_str x) = true)
  /\ bulk [] allow_duplicates e = (Ok [], e).
Proof.
  split; [|split; [|reflexivity]].
  - intros ids e' Hrun. unfold bulk_add_documents in Hrun.
    unfold try_except in Hrun.
    unfold mbind at 1, M_bind at 1, bind at 1 in Hrun.
    destruct (loop allow_duplicates documents _ e) as [[acc|x] e1] eqn:Hloop;
      [|discriminate].
    assert (Hal0 : aligned {| ids_to_add := []; texts_to_add := [];
                              embeddings_to_add := []; metadatas_to_add := [];
                              added_ids := []; skipped_count := 0 |})
      by (repeat split).
    destruct (loop_ok _ _ _ _ _ _ Hloop Hal0) as (_ & Hcount & Hdup).
    cbn [added_ids skipped_count List.length] in Hcount, Hdup.
    assert (Hids : ids = added_ids acc).
    { run_monad_in Hrun.
      destruct (ids_to_add acc);
        [|destruct (coll_add collection _ _ _ _ e1) as [[u|x] e2]];
        inversion Hrun; reflexivity. }
    subst ids. split; [lia|]. intros Htrue. specialize (Hdup Htrue). lia.
  - intros x e' Hrun. unfold bulk_add_documents in Hrun.
    unfold try_except in Hrun.
    match type of Hrun with
    | match ?body e with _ => _ end = _ => destruct (body e) as [[ids|x0] e1]
    end; [discriminate|].
    unfold raise in Hrun. inversion Hrun; subst; clear Hrun.
    cbn [exn_cls exn_str]. split; [reflexivity | apply startswith_app].
Qed.

End AnyCollection.

End DatabaseMore.

Module StoreMore.
Import Database DatabaseExt DatabaseSpec DatabaseMore StoreSpec.

Lemma add_and_search_raise_runtime_error_witness :
  add_document Fixtures.broken_collection (fun _ => 0%Q) (fun _ => 0) (fun _ => "")
               "The sky is blue." [1%Q; 0%Q] None false tt
  = (Raise (Exn RuntimeError "Document storage failed: connection lost"), tt)
  /\ exn_cls (Exn RuntimeError "Document storage failed: connection lost") = RuntimeError.
Proof.
  split; [reflexivity|].
  destruct (add_and_search_raise_runtime_error Fixtures.broken_collection
              (fun _ => 0%Q) (fun _ => 0) (fun _ => "")
              "The sky is blue." [1%Q; 0%Q] None false 5 tt) as [Hadd _].
  apply (Hadd _ tt). reflexivity.
Defined.

Lemma bulk_add_counts_and_errors_witness :
  bulk_add_documents Fixtures.broken_collection (fun _ => 0%Q) (fun _ => 0) (fun _ => "")
                     MoreFixtures.two_documents false tt
  = (Raise (Exn RuntimeError "Bulk add failed: connection lost"), tt)
  /\ exn_cls (Exn RuntimeError "Bulk add failed: connection lost") = RuntimeError.
Proof.
  split; [reflexivity|].
  destruct (bulk_add_counts_and_errors Fixtures.broken_collection
              (fun _ => 0%Q) (fun _ => 0) (fun _ => "")
              MoreFixtures.two_documents false tt) as (_ & Hraise & _).
  apply (Hraise _ tt). reflexivity.
Defined.

(** ** Deletion on the reference collection *)

Section Model.
Context {vector : Type}.
Variable distance : vector -> vector -> Q.

Abbreviation state := (ChromaModel.state vector).
Abbreviation collection := (ChromaModel.collection distance).

Lemma model_delete (s : state) doc_id en :
  ChromaModel.entries s !! doc_id = Some en ->
  delete_document collection doc_id s
  = (Ok true,
     {| ChromaModel.clock := ChromaModel.clock s;
        ChromaModel.embedding_function := ChromaModel.embedding_function s;
        ChromaModel.entries := base.delete doc_id (ChromaModel.entries s) |}).
Proof.
  intros Hen. unfold delete_document. run_monad.
  fold (_document_exists collection (Some doc_id)).
  rewrite document_exists_model, Hen. reflexivity.
Qed.

Lemma model_delete_missing (s : state) doc_id :
  ChromaModel.entries s !! doc_id = None ->
  delete_document collection doc_id s = (Ok false, s).
Proof.
  intros Hen. unfold delete_document. run_monad.
  fold (_document_exists collection (Some doc_id)).
  rewrite document_exists_model, Hen. reflexivity.
Qed.

Lemma model_get_missing (s : state) doc_id :
  ChromaModel.entries s !! doc_id = None ->
  get_document collection doc_id s = (Ok None, s).
Proof.
  intros Hen. unfold get_document. run_monad.
  cbn [coll_get ChromaModel.collection]. rewrite get_one, Hen. reflexivity.
Qed.

End Model.

(** On the reference collection, deleting a stored document returns
    [True]; after that [get_document] returns [None] for it, a second
    [delete_document] and any [update_document] return [False], and every
    other document reads back as before. *)
Theorem delete_then_get
        (s : ChromaModel.state (list Q)) (doc_id other : string)
        (en : ChromaModel.entry (list Q))
        (text : option string) (embedding : option (list Q)) (metadata : option dict) :
  ChromaModel.entries s !! doc_id = Some en ->
  other <> doc_id ->
  exists s',
    ChromaModel.delete_document doc_id s = (Ok true, s')
    /\ ChromaModel.get_document doc_id s' = (Ok None, s')
    /\ ChromaModel.delete_document doc_id s' = (Ok false, s')
    /\ ChromaModel.update_document doc_id text embedding metadata s' = (Ok false, s')
    /\ fst (ChromaModel.get_document other s') = fst (ChromaModel.get_document other s).
Proof.
  intros Hen Hne.
  unfold ChromaModel.delete_document, ChromaModel.get_document,
    ChromaModel.update_document.
  rewrite (model_delete _ _ _ _ Hen). eexists. split; [reflexivity|].
  assert (Hgone : ChromaModel.entries
                    {| ChromaModel.clock := ChromaModel.clock s;
                       ChromaModel.embedding_function := ChromaModel.embedding_function s;
                       ChromaModel.entries := base.delete doc_id (ChromaModel.entries s) |}
                  !! doc_id = None) by apply lookup_delete_eq.
  split; [now apply model_get_missing|].
  split; [now apply model_delete_missing|].
  split; [now apply model_update_missing|].
  assert (Hother : ChromaModel.entries
                     {| ChromaModel.clock := ChromaModel.clock s;
                        ChromaModel.embedding_function := ChromaModel.embedding_function s;
                        ChromaModel.entries := base.delete doc_id (ChromaModel.entries s) |}
                   !! other = ChromaModel.entries s !! other)
    by (apply lookup_delete_ne; congruence).
  destruct (ChromaModel.entries s !! other) as [eo|] eqn:Eo.
  - rewrite (get_document_model _ _ _ _ Hother), (get_document_model _ _ _ _ Eo).
    reflexivity.
  - rewrite (model_get_missing _ _ _ Hother), (model_get_missing _ _ _ Eo).
    reflexivity.
Qed.

Lemma delete_then_get_witness :
  exists s',
    ChromaModel.delete_document "doc-1" Fixtures.sky_store = (Ok true, s')
    /\ ChromaModel.get_document "doc-1" s' = (Ok None, s').
Proof.
  destruct (delete_then_get Fixtures.sky_store "doc-1" "doc-2" Fixtures.sky_entry
              None None None) as (s' & Hdel & Hget & _).
  - vm_compute. reflexivity.
  - discriminate.
  - exists s'. split; assumption.
Defined.

(** On the reference collection, an update of a stored document that
    carries a text, its embedding and a metadata mapping reads back with
    the new text, the new embedding, the time of the update as timestamp
    and, when the text is not empty, the
    length of the new text as text length. With the empty text the document
    becomes empty and no text length is stamped: the one passed in the
    mapping, or else the stored one, stays. *)
Theorem update_stamps_text_length
        (s : ChromaModel.state (list Q)) (doc_id new_text : string)
        (new_embedding : list Q) (md : dict) (en : ChromaModel.entry (list Q)) :
  ChromaModel.entries s !! doc_id = Some en ->
  exists s' d m,
    ChromaModel.update_document doc_id (Some new_text) (Some new_embedding) (Some md) s
    = (Ok true, s')
    /\ ChromaModel.get_document doc_id s' = (Ok (Some d), s')
    /\ doc_document d = Some new_text
    /\ doc_embedding d = Some new_embedding
    /\ doc_metadata d = Some m
    /\ m !! "timestamp" = Some (PyFloat (ChromaModel.clock s))
    /\ (new_text <> "" ->
        m !! "text_length" = Some (PyInt (Z.of_nat (String.length new_text))))
    /\ (new_text = "" ->
        m !! "text_length"
        = (md ∪ ChromaModel.entry_metadata en) !! "text_length").
Proof.
  intros Hen.
  unfold ChromaModel.update_document, ChromaModel.get_document.
  rewrite (model_update_embedded _ _ _ new_text new_embedding md _ Hen).
  do 3 eexists. split; [reflexivity|].
  split.
  { apply get_document_model. cbn [ChromaModel.entries].
    rewrite lookup_alter_eq, Hen. reflexivity. }
  cbn [doc_document doc_embedding doc_metadata ChromaModel.update_entry
       ChromaModel.entry_document ChromaModel.entry_embedding
       ChromaModel.entry_metadata default].
  split; [reflexivity|]. split; [reflexivity|]. split; [reflexivity|].
  split; [apply lookup_union_Some_l, stamped_timestamp|].
  split.
  - intros Hne. apply lookup_union_Some_l. unfold ChromaModel.stamped.
    destruct new_text; [contradiction|]. cbn [PyStr.truthy].
    apply lookup_insert_eq.
  - intros ->. unfold ChromaModel.stamped. cbn [PyStr.truthy].
    rewrite !lookup_union. now rewrite lookup_insert_ne by discriminate.
Qed.

Lemma update_stamps_text_length_witness :
  exists s' d m,
    ChromaModel.update_document "doc-1" (Some "Night sky.") (Some [0%Q; 1%Q]) (Some ∅)
                                Fixtures.sky_store = (Ok true, s')
    /\ ChromaModel.get_document "doc-1" s' = (Ok (Some d), s')
    /\ doc_metadata d = Some m
    /\ m !! "timestamp" = Some (PyFloat 200%Q).
Proof.
  destruct (update_stamps_text_length Fixtures.sky_store "doc-1" "Night sky."
              [0%Q; 1%Q] ∅ Fixtures.sky_entry)
    as (s' & d & m & Hup & Hget & _ & _ & Hm & Ht & _).
  - vm_compute. reflexivity.
  - exists s', d, m. repeat split; assumption.
Defined.

Lemma collection_stats_never_raise_witness :
  get_collection_stats (raise Fixtures.connection_lost) "documents" tt
  = (Ok {| document_count := 0; collection_name := "unknown" |}, tt).
Proof.
  destruct (collection_stats_never_raise (E := unit)
              (raise Fixtures.connection_lost) "documents" tt) as (_ & _ & Hfail).
  apply (Hfail Fixtures.connection_lost tt). reflexivity.
Defined.

End StoreMore.

(* ===================================================================== *)
(** * Further properties of the orchestrator *)
(* ===================================================================== *)

Module SourcesMore.
Import Rag RagSpec.

Lemma zip3_length {A B C} (a : list A) (b : list B) (c : list C) :
  List.length (zip3 a b c)
  = Nat.min (List.length a) (Nat.min (List.length b) (List.length c)).
Proof.
  revert b c; induction a as [|x a IH]; intros [|y b] [|z c]; simpl;
    try reflexivity.
  now rewrite IH.
Qed.

Lemma zip3_nth {A B C} (a : list A) (b : list B) (c : list C) i p :
  List.nth_error (zip3 a b c) i = Some p <->
  List.nth_error a i = Some (fst (fst p))
  /\ List.nth_error b i = Some (snd (fst p))
  /\ List.nth_error c i = Some (snd p).
Proof.
  revert b c i; induction a as [|x a IH]; intros [|y b] [|z c] [|i]; simpl;
    try (split; [discriminate | intros (H1 & H2 & H3); discriminate]).
  - destruct p as [[p1 p2] p3]. simpl. split.
    + intros H. inversion H. auto.
    + intros (H1 & H2 & H3). congruence.
  - apply IH.
Qed.

(** The sources by position, with the score as the rationals give it. *)
Lemma format_sources_nth
        (documents : list string) (metadatas : list dict) (distances : list Q) :
  List.length (_format_sources documents metadatas distances)
  = Nat.min (List.length documents)
            (Nat.min (List.length metadatas) (List.length distances))
  /\ (forall i s,
         List.nth_error (_format_sources documents metadatas distances) i = Some s <->
         exists c m d,
           List.nth_error documents i = Some c
           /\ List.nth_error metadatas i = Some m
           /\ List.nth_error distances i = Some d
           /\ s = {| content := c;
                     score := py_round (py_max 0 (1 - d / 2)) 3;
                     metadata := m |}).
Proof.
  unfold _format_sources. split.
  - now rewrite List.length_map, zip3_length.
  - intros i s. rewrite List.nth_error_map.
    destruct (List.nth_error (zip3 documents metadatas distances) i)
      as [[[c m] d]|] eqn:Hz; simpl.
    + apply zip3_nth in Hz as (H1 & H2 & H3). simpl in *. split.
      * intros H. inversion H. exists c, m, d. auto.
      * intros (c' & m' & d' & H1' & H2' & H3' & ->).
        assert (c' = c) by congruence. assert (m' = m) by congruence.
        assert (d' = d) by congruence. subst. reflexivity.
    + split; [discriminate|].
      intros (c & m & d & H1 & H2 & H3 & _).
      assert (Hp : List.nth_error (zip3 documents metadatas distances) i
                   = Some (c, m, d)) by (apply zip3_nth; auto).
      congruence.
Qed.

(** ** The score falls as the distance grows *)

Lemma round_half_even_mono x y :
  (x <= y)%Q -> round_half_even x <= round_half_even y.
Proof.
  intros Hxy.
  pose proof (Qfloor_resp_le _ _ Hxy) as Hf.
  pose proof (round_half_even_floor x) as [_ Hx].
  pose proof (round_half_even_floor y) as [Hy _].
  destruct (Z.eq_dec (Qfloor x) (Qfloor y)) as [Heq|Hne]; [|lia].
  unfold round_half_even. rewrite <- Heq.
  assert (Hr : (x - inject_Z (Qfloor x) <= y - inject_Z (Qfloor x))%Q).
  { apply Qplus_le_compat; [exact Hxy | apply Qle_refl]. }
  destruct (Qcompare (x - inject_Z (Qfloor x)) (1 # 2)) eqn:Cx;
    destruct (Qcompare (y - inject_Z (Qfloor x)) (1 # 2)) eqn:Cy;
    try (destruct (Z.even (Qfloor x)); lia); try lia; exfalso.
  - apply Qeq_alt in Cx. apply Qlt_alt in Cy.
    rewrite Cx in Hr. apply (Qlt_irrefl (1 # 2)). eapply Qle_lt_trans; eauto.
  - apply Qgt_alt in Cx. apply Qeq_alt in Cy.
    rewrite Cy in Hr. apply (Qlt_irrefl (1 # 2)). eapply Qlt_le_trans; eauto.
  - apply Qgt_alt in Cx. apply Qlt_alt in Cy.
    apply (Qlt_irrefl (1 # 2)).
    eapply Qlt_trans; [exact Cx|]. eapply Qle_lt_trans; eauto.
Qed.

Lemma py_round_3_mono x y : (x <= y)%Q -> (py_round x 3 <= py_round y 3)%Q.
Proof.
  intros Hxy. unfold py_round. rewrite !Qred_correct.
  change (inject_Z (10 ^ Z.of_nat 3)) with (inject_Z 1000).
  apply Qmult_le_compat_r; [|discriminate].
  rewrite <- Zle_Qle. apply round_half_even_mono.
  apply Qmult_le_compat_r; [exact Hxy | discriminate].
Qed.

Lemma similarity_score_antitone d1 d2 :
  (d1 <= d2)%Q -> (similarity_score d2 <= similarity_score d1)%Q.
Proof.
  intros Hd. unfold similarity_score, py_max.
  assert (H12 : (1 - d2 / 2 <= 1 - d1 / 2)%Q).
  { apply Qplus_le_compat; [apply Qle_refl|]. apply Qopp_le_compat.
    apply Qmult_le_compat_r; [exact Hd | discriminate]. }
  destruct (Qlt_le_dec 0 (1 - d2 / 2)), (Qlt_le_dec 0 (1 - d1 / 2)).
  - exact H12.
  - exfalso. apply (Qlt_irrefl 0).
    eapply Qlt_le_trans; [eassumption|]. eapply Qle_trans; eassumption.
  - now apply Qlt_le_weak.
  - apply Qle_refl.
Qed.

(** Among the sources that [_format_sources] returns, a source at a
    greater distance never has a higher score: the scores keep the ranking
    of the distances. *)
Theorem format_sources_ranking
        (documents : list string) (metadatas : list dict) (distances : list Q)
        (i j : nat) (si sj : Source) (di dj : Q) :
  List.nth_error (_format_sources documents metadatas distances) i = Some si ->
  List.nth_error (_format_sources documents metadatas distances) j = Some sj ->
  List.nth_error distances i = Some di ->
  List.nth_error distances j = Some dj ->
  (di <= dj)%Q ->
  (score sj <= score si)%Q.
Proof.
  intros Hi Hj Hdi Hdj Hle.
  destruct (format_sources_nth documents metadatas distances) as [_ Hpos].
  apply Hpos in Hi as (ci & mi & di' & _ & _ & Hdi' & ->).
  apply Hpos in Hj as (cj & mj & dj' & _ & _ & Hdj' & ->).
  assert (di' = di) by congruence. assert (dj' = dj) by congruence. subst.
  cbn [score]. apply py_round_3_mono. now apply similarity_score_antitone.
Qed.

Lemma format_sources_ranking_witness :
  (score {| content := "b"; score := py_round (py_max 0 (1 - (3 # 2) / 2)) 3;
            metadata := ∅ |}
   <= score {| content := "a"; score := py_round (py_max 0 (1 - (1 # 2) / 2)) 3;
               metadata := ∅ |})%Q.
Proof.
  apply (format_sources_ranking ["a"; "b"] [∅; ∅] [1 # 2; 3 # 2] 0 1 _ _ (1 # 2) (3 # 2));
    try reflexivity.
  unfold Qle. simpl. lia.
Defined.

End SourcesMore.

Module OrchestratorMore.
Import Rag DatabaseSpec OrchestratorSpec.

Section Pipeline.
Context {E vector : Type}.
Variable generate_embeddings : list string -> M E (list vector).
Variable db_search : vector -> Z -> M E Database.SearchResults.
Variable requests_post : Request -> M E Response.
Variable time_time : E -> Q.

Abbreviation run :=
  (generate_answer generate_embeddings db_search requests_post time_time).
Abbreviation call_api := (_call_openrouter_api requests_post).

(** Closes the goal of [api_call_outcome] once the outcome is known. *)
Ltac api_done :=
  do 2 eexists; (split; [reflexivity|]);
  let x := fresh in let Hx := fresh in
  intros x Hx; inversion Hx; subst; cbn; split; discriminate.

(** [_call_openrouter_api] sends exactly one request, and raises neither
    a [RequestException] nor a [KeyError]: those two it answers itself. *)
Lemma api_call_outcome self question docs (w : world E) :
  exists r e1,
    call_api self question docs w
    = (r, {| calls := calls w ++ [GenerationApiCall]; env := e1 |})
    /\ (forall x, r = Raise x ->
          exn_cls x <> RequestException /\ exn_cls x <> KeyError).
Proof.
  unfold _call_openrouter_api. run_monad. unfold invoke.
  destruct (requests_post _ (env w)) as [[resp|[[] msg]] e1];
    cbn [env calls exn_cls exn_str]; try api_done.
  destruct (raise_for_status resp) as [?|[[] ?]];
    cbn [exn_cls exn_str]; try api_done.
  destruct (json resp) as [data|[[] ?]]; cbn [exn_cls exn_str]; try api_done.
  destruct (getitem_key data "choices") as [choices|[[] ?]];
    cbn [exn_cls exn_str]; try api_done.
  destruct (getitem_0 choices) as [choice|[[] ?]];
    cbn [exn_cls exn_str]; try api_done.
  destruct (getitem_key choice "message") as [message|[[] ?]];
    cbn [exn_cls exn_str]; try api_done.
  destruct (getitem_key message "content") as [content|[[] ?]];
    cbn [exn_cls exn_str]; try api_done.
  destruct (dict_get data "usage" (PyDict [])) as [usage|[[] ?]];
    cbn [exn_cls exn_str]; try api_done.
  destruct (dict_get usage "total_tokens" (PyInt 0)) as [tokens|[[] ?]];
    cbn [exn_cls exn_str]; try api_done.
  destruct (py_len content) as [n|[[] ?]]; cbn [exn_cls exn_str]; api_done.
Qed.

Lemma format_sources_le documents metadatas distances :
  (List.length (_format_sources documents metadatas distances)
   <= List.length documents)%nat.
Proof.
  unfold _format_sources. rewrite List.length_map, SourcesMore.zip3_length. lia.
Qed.

Lemma not_blank question :
  negb (PyStr.truthy question) || negb (PyStr.truthy (PyStr.strip question)) = false ->
  PyStr.strip question <> "".
Proof.
  intros H Hs. rewrite Hs in H. cbn in H. now rewrite orb_true_r in H.
Qed.

(** What every run of [generate_answer] comes to. *)
Lemma answer_outcome self question max_results (w : world E) :
  exists a w' cs,
    run self question max_results w = (Ok a, w')
    /\ calls w' = calls w ++ cs
    /\ (cs = []
        \/ cs = [EmbeddingGeneratorCall]
        \/ cs = [EmbeddingGeneratorCall; VectorStoreCall]
        \/ (cs = [EmbeddingGeneratorCall; VectorStoreCall; GenerationApiCall]
            /\ use_mock_llm self = false))
    /\ (PyStr.strip question = "" <-> cs = [])
    /\ model_used a = model_slug self
    /\ (List.length (sources a) <= context_documents_found a)%nat.
Proof.
  unfold generate_answer, now. run_monad.
  destruct (negb (PyStr.truthy question)
            || negb (PyStr.truthy (PyStr.strip question))) eqn:Hblank.
  { exists (_create_error_response self "Question cannot be empty"), w, [].
    rewrite List.app_nil_r. repeat split; auto.
    intros _. destruct question as [|c q]; [reflexivity|].
    cbn [PyStr.truthy negb orb] in Hblank.
    now apply negb_true_iff, PyStrFacts.truthy_false in Hblank. }
  pose proof (not_blank _ Hblank) as Hq.
  unfold invoke.
  destruct (generate_embeddings [question] (env w)) as [[[|v vs]|x] e1];
    cbn [list_first env calls].
  - do 2 eexists. exists [EmbeddingGeneratorCall].
    split; [reflexivity|]. cbn [calls].
    repeat split; auto; try discriminate. intros H; contradiction.
  - destruct (db_search v max_results e1) as [[found|x] e2]; cbn [env calls].
    + destruct (use_mock_llm self) eqn:Hmock.
      * cbn [py_len]. do 2 eexists.
        exists [EmbeddingGeneratorCall; VectorStoreCall].
        split; [reflexivity|]. cbn [calls sources context_documents_found model_used].
        rewrite <- List.app_assoc.
        repeat split; auto; try discriminate; try (intros H; contradiction).
        apply format_sources_le.
      * destruct (api_call_outcome self question (Database.documents found)
                    {| calls := (calls w ++ [EmbeddingGeneratorCall]) ++ [VectorStoreCall];
                       env := e2 |}) as (r & e3 & Hr & _).
        rewrite Hr. cbn [calls].
        destruct r as [[ans tokens]|x].
        -- destruct (py_len ans) as [n|x]; do 2 eexists;
             exists [EmbeddingGeneratorCall; VectorStoreCall; GenerationApiCall];
             (split; [reflexivity|]);
             cbn [calls sources context_documents_found model_used
                  _create_error_response List.length];
             rewrite <- !List.app_assoc;
             repeat split; auto 6; try discriminate; try (intros H; contradiction);
             try lia.
           apply format_sources_le.
        -- do 2 eexists.
           exists [EmbeddingGeneratorCall; VectorStoreCall; GenerationApiCall].
           split; [reflexivity|]. cbn [calls]. rewrite <- !List.app_assoc.
           repeat split; auto 6; try discriminate. intros H; contradiction.
    + do 2 eexists. exists [EmbeddingGeneratorCall; VectorStoreCall].
      split; [reflexivity|]. cbn [calls]. rewrite <- List.app_assoc.
      repeat split; auto; try discriminate. intros H; contradiction.
  - do 2 eexists. exists [EmbeddingGeneratorCall].
    split; [reflexivity|]. cbn [calls].
    repeat split; auto; try discriminate. intros H; contradiction.
Qed.

(** Whatever the HTTP client and the response are,
    [_call_openrouter_api] sends exactly one request, and it raises
    neither a [RequestException] nor a [KeyError]: those two it turns into
    an answer text itself. *)
Theorem api_call_sends_one_request
        (self : RAGPipeline) (question : string) (docs : list string) (w : world E) :
  exists r e1,
    call_api self question docs w
    = (r, {| calls := calls w ++ [GenerationApiCall]; env := e1 |})
    /\ (forall x, r = Raise x ->
          exn_cls x <> RequestException /\ exn_cls x <> KeyError).
Proof. apply api_call_outcome. Qed.

(** The calls [generate_answer] makes are, in this order, the embedding
    generator, the vector store and the generation API, or a beginning of
    that sequence: the store is not searched unless the question was
    embedded, the API is not called unless the store answered, and it is
    never called in mock mode; no collaborator is called twice, and none
    at all exactly when the question is blank. *)
Theorem collaborators_called_in_order
        (self : RAGPipeline) (question : string) (max_results : Z) (w : world E) :
  exists a w' cs,
    run self question max_results w = (Ok a, w')
    /\ calls w' = calls w ++ cs
    /\ (cs = []
        \/ cs = [EmbeddingGeneratorCall]
        \/ cs = [EmbeddingGeneratorCall; VectorStoreCall]
        \/ (cs = [EmbeddingGeneratorCall; VectorStoreCall; GenerationApiCall]
            /\ use_mock_llm self = false))
    /\ (PyStr.strip question = "" <-> cs = []).
Proof.
  destruct (answer_outcome self question max_results w)
    as (a & w' & cs & Hrun & Hcalls & Hcs & Hblank & _).
  exists a, w', cs. auto.
Qed.

(** Every answer of [generate_answer], the error answers included, names
    the model of the pipeline and has at most as many sources as the
    number of context documents it reports. *)
Theorem answers_are_consistent
        (self : RAGPipeline) (question : string) (max_results : Z) (w : world E) :
  exists a w',
    run self question max_results w = (Ok a, w')
    /\ model_used a = model_slug self
    /\ (List.length (sources a) <= context_documents_found a)%nat.
Proof.
  destruct (answer_outcome self question max_results w)
    as (a & w' & cs & Hrun & _ & _ & _ & Hmodel & Hlen).
  exists a, w'. auto.
Qed.

(** ** Mock mode *)

Lemma mock_answer_is_not_error question docs :
  starts_with_error (PyStr (_generate_mock_answer question docs)) = false.
Proof. destruct docs; reflexivity. Qed.

(** In mock mode, once the question is embedded and the store has
    answered, [generate_answer] returns the canned answer, which does not
    begin with ["Error:"], with zero tokens, the formatted sources, the
    number of retrieved documents and the elapsed time rounded to two
    decimals; the generation API is not called. *)
Theorem mock_mode_answer
        (self : RAGPipeline) (question : string) (max_results : Z) (w : world E)
        (v : vector) (vs : list vector) (e1 e2 : E) (found : Database.SearchResults) :
  PyStr.truthy (PyStr.strip question) = true ->
  use_mock_llm self = true ->
  generate_embeddings [question] (env w) = (Ok (v :: vs), e1) ->
  db_search v max_results e1 = (Ok found, e2) ->
  run self question max_results w
  = (Ok {| answer := PyStr (_generate_mock_answer question (Database.documents found));
           sources := _format_sources (Database.documents found)
                        (Database.metadatas found) (Database.distances found);
           model_used := model_slug self;
           tokens_used := PyInt 0;
           processing_time := py_round (time_time e2 - time_time (env w)) 2;
           context_documents_found := List.length (Database.documents found) |},
     {| calls := calls w ++ [EmbeddingGeneratorCall; VectorStoreCall]; env := e2 |})
  /\ starts_with_error
       (PyStr (_generate_mock_answer question (Database.documents found))) = false.
Proof.
  intros Hq Hmock Hemb Hsearch. split; [|apply mock_answer_is_not_error].
  unfold generate_answer, now. run_monad.
  rewrite Hq, (strip_truthy _ Hq), Hmock. cbn [negb orb].
  unfold invoke. cbn [env calls]. rewrite Hemb. cbn [list_first env calls].
  rewrite Hsearch. cbn [py_len env calls]. rewrite <- List.app_assoc. reflexivity.
Qed.

(** ** Responses of the generation API *)

Lemma live_answer self question max_results (w : world E)
      v vs e1 found e2 content tokens w3 :
  PyStr.truthy (PyStr.strip question) = true ->
  use_mock_llm self = false ->
  generate_embeddings [question] (env w) = (Ok (v :: vs), e1) ->
  db_search v max_results e1 = (Ok found, e2) ->
  call_api self question (Database.documents found)
           {| calls := (calls w ++ [EmbeddingGeneratorCall]) ++ [VectorStoreCall];
              env := e2 |} = (Ok (PyStr content, tokens), w3) ->
  run self question max_results w
  = (Ok {| answer := PyStr content;
           sources := _format_sources (Database.documents found)
                        (Database.metadatas found) (Database.distances found);
           model_used := model_slug self;
           tokens_used := tokens;
           processing_time := py_round (time_time (env w3) - time_time (env w)) 2;
           context_documents_found := List.length (Database.documents found) |}, w3).
Proof.
  intros Hq Hlive Hemb Hsearch Hapi.
  unfold generate_answer, now. run_monad.
  rewrite Hq, (strip_truthy _ Hq), Hlive. cbn [negb orb].
  unfold invoke. cbn [env calls]. rewrite Hemb. cbn [list_first env calls].
  rewrite Hsearch. cbn [env calls]. rewrite Hapi. reflexivity.
Qed.

Lemma live_raise self question max_results (w : world E)
      v vs e1 found e2 x w3 :
  PyStr.truthy (PyStr.strip question) = true ->
  use_mock_llm self = false ->
  generate_embeddings [question] (env w) = (Ok (v :: vs), e1) ->
  db_search v max_results e1 = (Ok found, e2) ->
  call_api self question (Database.documents found)
           {| calls := (calls w ++ [EmbeddingGeneratorCall]) ++ [VectorStoreCall];
              env := e2 |} = (Raise x, w3) ->
  run self question max_results w
  = (Ok (_create_error_response self ("Failed to generate answer: " ++ exn_str x)), w3).
Proof.
  intros Hq Hlive Hemb Hsearch Hapi.
  unfold generate_answer, now. run_monad.
  rewrite Hq, (strip_truthy _ Hq), Hlive. cbn [negb orb].
  unfold invoke. cbn [env calls]. rewrite Hemb. cbn [list_first env calls].
  rewrite Hsearch. cbn [env calls]. rewrite Hapi. reflexivity.
Qed.

(** In live mode, with the question embedded and the store answered,
    a response of the generation API that is not a completion is handled
    in three ways. An HTTP status from 400 to 599 gives a regular answer
    whose text begins with ["API Error: "], with zero tokens and the
    retrieved sources, and the body is not read. A JSON object without
    the key ["choices"] gives a regular answer with the text
    ["Error: Unexpected response format from API"], zero tokens and the
    retrieved sources. A JSON object whose ["choices"] is an empty list
    gives the standardized error answer, without sources, whose text is
    ["Error: Failed to generate answer: list index out of range"]. *)
Theorem malformed_api_responses
        (self : RAGPipeline) (question : string) (max_results : Z) (w : world E)
        (v : vector) (vs : list vector) (e1 e2 e3 : E)
        (found : Database.SearchResults) (response : Response) :
  PyStr.truthy (PyStr.strip question) = true ->
  use_mock_llm self = false ->
  generate_embeddings [question] (env w) = (Ok (v :: vs), e1) ->
  db_search v max_results e1 = (Ok found, e2) ->
  (forall request, requests_post request e2 = (Ok response, e3)) ->
  let srcs := _format_sources (Database.documents found)
                (Database.metadatas found) (Database.distances found) in
  (400 <= status_code response < 600 ->
   exists a w' failure,
     run self question max_results w = (Ok a, w')
     /\ answer a = PyStr ("API Error: " ++ failure)
     /\ tokens_used a = PyInt 0 /\ sources a = srcs)
  /\ (forall items,
         ~ (400 <= status_code response < 600) ->
         json response = Ok (PyDict items) ->
         List.find (fun kv => String.eqb (fst kv) "choices") items = None ->
         exists a w',
           run self question max_results w = (Ok a, w')
           /\ answer a = PyStr "Error: Unexpected response format from API"
           /\ tokens_used a = PyInt 0 /\ sources a = srcs)
  /\ (forall items,
         ~ (400 <= status_code response < 600) ->
         json response = Ok (PyDict items) ->
         List.find (fun kv => String.eqb (fst kv) "choices") items
         = Some ("choices", PyList []) ->
         exists w',
           run self question max_results w
           = (Ok (_create_error_response self
                    "Failed to generate answer: list index out of range"), w')).
Proof.
  intros Hq Hlive Hemb Hsearch Hpost srcs.
  split; [|split].
  - intros Hstatus. do 3 eexists. split.
    + eapply live_answer; eauto.
      unfold _call_openrouter_api. run_monad. unfold invoke. cbn [env calls].
      rewrite Hpost. unfold raise_for_status.
      replace ((400 <=? status_code response) && (status_code response <? 600))
        with true by (symmetry; apply andb_true_iff; split;
                      [apply Z.leb_le | apply Z.ltb_lt]; lia).
      cbn [exn_cls exn_str]. reflexivity.
    + repeat split.
  - intros items Hstatus Hjson Hfind. do 2 eexists. split.
    + eapply live_answer; eauto.
      unfold _call_openrouter_api. run_monad. unfold invoke. cbn [env calls].
      rewrite Hpost. unfold raise_for_status.
      replace ((400 <=? status_code response) && (status_code response <? 600))
        with false by (symmetry; apply andb_false_iff;
                       destruct (Z.leb_spec 400 (status_code response));
                       [right; apply Z.ltb_ge; lia | left; reflexivity]).
      rewrite Hjson. unfold getitem_key at 1. rewrite Hfind.
      cbn [exn_cls exn_str]. reflexivity.
    + repeat split.
  - intros items Hstatus Hjson Hfind. eexists.
    eapply (live_raise _ _ _ _ _ _ _ _ _ (Exn IndexError "list index out of range"));
      eauto.
    unfold _call_openrouter_api. run_monad. unfold invoke. cbn [env calls].
    rewrite Hpost. unfold raise_for_status.
    replace ((400 <=? status_code response) && (status_code response <? 600))
      with false by (symmetry; apply andb_false_iff;
                     destruct (Z.leb_spec 400 (status_code response));
                     [right; apply Z.ltb_ge; lia | left; reflexivity]).
    rewrite Hjson. unfold getitem_key at 1. rewrite Hfind.
    cbn [snd getitem_0 exn_cls exn_str]. reflexivity.
Qed.

End Pipeline.

Import RagFixtures.

Lemma mock_mode_answer_witness :
  exists a,
    generate_answer embed_ok search_one post_times_out clock_zero
                    MoreFixtures.mock_pipeline "What colour is the sky?" 3 fresh
    = (Ok a, {| calls := [EmbeddingGeneratorCall; VectorStoreCall]; env := tt |})
    /\ tokens_used a = PyInt 0
    /\ context_documents_found a = 1%nat.
Proof.
  destruct (mock_mode_answer embed_ok search_one post_times_out clock_zero
              MoreFixtures.mock_pipeline "What colour is the sky?" 3 fresh
              [1%Q; 0%Q] [] tt tt
              {| Database.documents := ["The sky is blue."];
                 Database.distances := [1 # 2];
                 Database.metadatas := [{[ "topic" := PyStr "sky" ]}];
                 Database.ids := ["doc-1"] |})
    as [Hrun _]; try reflexivity.
  eexists. split; [exact Hrun|]. split; reflexivity.
Defined.

Lemma malformed_api_responses_witness :
  exists w',
    generate_answer embed_ok search_one MoreFixtures.post_empty_choices clock_zero
                    live_pipeline "What colour is the sky?" 3 fresh
    = (Ok (_create_error_response live_pipeline
             "Failed to generate answer: list index out of range"), w').
Proof.
  destruct (malformed_api_responses embed_ok search_one MoreFixtures.post_empty_choices
              clock_zero live_pipeline "What colour is the sky?" 3 fresh
              [1%Q; 0%Q] [] tt tt tt
              {| Database.documents := ["The sky is blue."];
                 Database.distances := [1 # 2];
                 Database.metadatas := [{[ "topic" := PyStr "sky" ]}];
                 Database.ids := ["doc-1"] |}
              {| status_code := 200; json := Ok (PyDict [("choices", PyList [])]) |})
    as (_ & _ & Hempty); try reflexivity.
  apply (Hempty [("choices", PyList [])]).
  - cbn. lia.
  - reflexivity.
  - reflexivity.
Defined.

End OrchestratorMore.

(* ===================================================================== *)
(** * The exceptions of the orchestrator *)
(* ===================================================================== *)

Module OrchestratorErrors.
Import Rag DatabaseSpec OrchestratorSpec OrchestratorMore.


Section Pipeline.
Context {E vector : Type}.
Variable generate_embeddings : list string -> M E (list vector).
Variable db_search : vector -> Z -> M E Database.SearchResults.
Variable requests_post : Request -> M E Response.
Variable time_time : E -> Q.

Abbreviation run :=
  (generate_answer generate_embeddings db_search requests_post time_time).
Abbreviation call_api := (_call_openrouter_api requests_post).





End Pipeline.

Import RagFixtures.


End OrchestratorErrors.

(* ===================================================================== *)
(** * The validators of the request models *)
(* ===================================================================== *)

Module ModelsMore.
Import Models.

Lemma lstrip_head s :
  PyStr.lstrip s = ""
  \/ exists c r, PyStr.lstrip s = String c r /\ PyStr.isspace c = false.
Proof.
  induction s as [|c s IH]; simpl; [now left|].
  destruct (PyStr.isspace c) eqn:Hc; [exact IH|]. right. eauto.
Qed.

Lemma rstrip_cons c s :
  PyStr.isspace c = false -> PyStr.rstrip (String c s) = String c (PyStr.rstrip s).
Proof. intros Hc. simpl. rewrite Hc. now destruct (PyStr.rstrip s). Qed.

Lemma rstrip_idempotent s : PyStr.rstrip (PyStr.rstrip s) = PyStr.rstrip s.
Proof.
  induction s as [|c s IH]; [reflexivity|].
  cbn [PyStr.rstrip]. destruct (PyStr.rstrip s) as [|a r] eqn:Hr.
  - destruct (PyStr.isspace c) eqn:Hc; [reflexivity|].
    cbn [PyStr.rstrip]. now rewrite Hc.
  - change (PyStr.rstrip (String c (String a r)))
      with (match PyStr.rstrip (String a r) with
            | EmptyString => if PyStr.isspace c then EmptyString
                             else String c EmptyString
            | r0 => String c r0
            end).
    now rewrite IH.
Qed.

Lemma strip_idempotent s : PyStr.strip (PyStr.strip s) = PyStr.strip s.
Proof.
  unfold PyStr.strip.
  destruct (lstrip_head s) as [->|(c & r & -> & Hc)]; [reflexivity|].
  rewrite (rstrip_cons c r Hc). cbn [PyStr.lstrip]. rewrite Hc.
  rewrite <- (rstrip_cons c r Hc). apply rstrip_idempotent.
Qed.

Lemma validate_ok message v :
  PyStr.strip v <> "" -> validate_nonblank message v = Ok (PyStr.strip v).
Proof.
  intros Hv. unfold validate_nonblank.
  destruct v as [|c v]; [now elim Hv|]. cbn [PyStr.truthy negb orb].
  destruct (PyStr.strip (String c v)); [now elim Hv | reflexivity].
Qed.

Lemma validate_blank message v :
  PyStr.strip v = "" -> validate_nonblank message v = Raise (Exn ValueError message).
Proof.
  intros Hv. unfold validate_nonblank. rewrite Hv. cbn [PyStr.truthy negb].
  now rewrite orb_true_r.
Qed.

(** A validator of the request models accepts a value exactly when it is
    not blank; what it returns is the stripped value, which is not empty,
    has no whitespace left at either end, and passes the validator again
    unchanged. A blank value is refused with a [ValueError] carrying the
    message of the validator. *)
Theorem validators_strip (message v : string) :
  (forall r,
      validate_nonblank message v = Ok r ->
      r = PyStr.strip v
      /\ r <> ""
      /\ PyStr.strip r = r
      /\ validate_nonblank message r = Ok r)
  /\ (forall e,
         validate_nonblank message v = Raise e ->
         PyStr.strip v = "" /\ e = Exn ValueError message)
  /\ (PyStr.strip v = "" ->
      validate_text v = Raise (Exn ValueError "Text cannot be empty")
      /\ validate_query v = Raise (Exn ValueError "Query cannot be empty")
      /\ validate_question v = Raise (Exn ValueError "Question cannot be empty")).
Proof.
  destruct (string_dec (PyStr.strip v) "") as [Hb|Hn].
  - rewrite (validate_blank message v Hb). split; [discriminate|].
    split; [intros e H; inversion H; auto|].
    intros _. unfold validate_text, validate_query, validate_question.
    now rewrite !validate_blank.
  - rewrite (validate_ok message v Hn). split.
    + intros r H. inversion H; subst; clear H.
      split; [reflexivity|]. split; [exact Hn|].
      split; [apply strip_idempotent|].
      rewrite validate_ok by (rewrite strip_idempotent; exact Hn).
      now rewrite strip_idempotent.
    + split; [discriminate | contradiction].
Qed.

Lemma validators_strip_witness :
  validate_question "  What is RAG?  " = Ok "What is RAG?"
  /\ validate_question "What is RAG?" = Ok "What is RAG?".
Proof.
  split; [reflexivity|].
  destruct (validators_strip "Question cannot be empty" "  What is RAG?  ")
    as (Hok & _).
  destruct (Hok "What is RAG?" eq_refl) as (_ & _ & _ & Hagain).
  exact Hagain.
Defined.

Section Pipeline.
Context {E vector : Type}.
Variable generate_embeddings : list string -> M E (list vector).
Variable db_search : vector -> Z -> M E Database.SearchResults.
Variable requests_post : Rag.Request -> M E Rag.Response.
Variable time_time : E -> Q.

(** A question that [ChatRequest.validate_question] has accepted is
    never refused as empty by [generate_answer]: the embedding generator
    is called, first of all collaborators. *)
Theorem validated_question_is_embedded
        (self : Rag.RAGPipeline) (raw question : string) (max_results : Z)
        (w : Rag.world E) :
  validate_question raw = Ok question ->
  exists a w' cs,
    Rag.generate_answer generate_embeddings db_search requests_post time_time
                        self question max_results w = (Ok a, w')
    /\ Rag.calls w' = Rag.calls w ++ Rag.EmbeddingGeneratorCall :: cs.
Proof.
  intros Hval. unfold validate_question in Hval.
  assert (Hne : PyStr.strip raw <> "").
  { intros Hb. rewrite (validate_blank _ _ Hb) in Hval. discriminate. }
  rewrite (validate_ok _ _ Hne) in Hval. inversion Hval; subst; clear Hval.
  pose proof (strip_idempotent raw) as Hstrip.
  destruct (OrchestratorMore.answer_outcome generate_embeddings db_search
              requests_post time_time self (PyStr.strip raw) max_results w)
    as (a & w' & cs & Hrun & Hcalls & Hcs & Hblank & _).
  exists a, w'.
  assert (Hnonempty : cs <> []).
  { intros Hnil. apply Hblank in Hnil. rewrite Hstrip in Hnil. contradiction. }
  destruct Hcs as [->|[->|[->|[-> _]]]]; [contradiction| | |]; eauto.
Qed.

End Pipeline.

Lemma validated_question_is_embedded_witness :
  exists a w' cs,
    Rag.generate_answer RagFixtures.embed_ok RagFixtures.search_one
                        RagFixtures.post_times_out RagFixtures.clock_zero
                        MoreFixtures.mock_pipeline "What is RAG?" 3 RagFixtures.fresh
    = (Ok a, w')
    /\ Rag.calls w' = [] ++ Rag.EmbeddingGeneratorCall :: cs.
Proof.
  apply (validated_question_is_embedded RagFixtures.embed_ok RagFixtures.search_one
           RagFixtures.post_times_out RagFixtures.clock_zero
           MoreFixtures.mock_pipeline "  What is RAG?  " "What is RAG?" 3
           RagFixtures.fresh).
  reflexivity.
Defined.

End ModelsMore.
